(** * go-simple-crud: the task handlers of handlers/tasks.go

    A shallow embedding of the five HTTP handlers and their two response
    helpers, together with executable models of what they call: the
    [http.ResponseWriter], [encoding/json] on the two structs of the program,
    and the GORM handle [database.DB] over the SQLite table of tasks.

    The handlers are Go procedures that mutate the response writer, consume
    the request body and talk to the process-wide database handle; here they
    are computations in a state monad over a [World] made of these three,
    with [None] for a panic.  The router of main.go stands before them. *)

From Stdlib Require Import ZArith NArith String Ascii List Bool Lia.
Import ListNotations.

Local Open Scope string_scope.
Local Open Scope list_scope.
Local Open Scope Z_scope.

(* ================================================================== *)
(** ** models/task.go *)

Module models.

(** [time.Time] as an instant on the integer line; [0] stands for the zero
    value, the one [IsZero] recognises. *)
Definition Time := Z.

(** [type Task struct]: [ID] is a Go [uint]. *)
Record Task : Type := mkTask {
  ID : N;
  Title : string;
  Description : string;
  Status : string;
  CreatedAt : Time;
  UpdatedAt : Time
}.

(** The value of [var task models.Task]. *)
Definition zero : Task := mkTask 0%N "" "" "" 0 0.

End models.

(* ================================================================== *)
(** ** net/http: status codes and the response writer *)

Definition StatusOK : Z := 200.
Definition StatusCreated : Z := 201.
Definition StatusBadRequest : Z := 400.
Definition StatusNotFound : Z := 404.
Definition StatusInternalServerError : Z := 500.

(** JSON texts, as syntax trees.  A [time.Time] is written by its own
    marshaller as an RFC 3339 string; [JTime t] is that string. *)
#[warnings="-register-all"] Inductive json : Type :=
| JNull
| JNum (n : Z)
| JStr (s : string)
| JTime (t : models.Time)
| JObj (members : list (string * json)).

(** A byte slice that holds JSON: the sequence of JSON texts in it.  [nil]
    is the empty slice. *)
Definition bytes := list json.

Definition Header := list (string * string).

Fixpoint Header_Get (h : Header) (key : string) : option string :=
  match h with
  | [] => None
  | (k, v) :: h' => if String.eqb k key then Some v else Header_Get h' key
  end.

Fixpoint Header_Set (h : Header) (key value : string) : Header :=
  match h with
  | [] => [(key, value)]
  | (k, v) :: h' =>
      if String.eqb k key then (k, value) :: h' else (k, v) :: Header_Set h' key value
  end.

(** The server's response writer.  [header] is the map [w.Header()] hands
    out; [wroteHeader] and [status] are the fields of the same names in
    net/http's [response]; [sent] is the copy of the header map that went on
    the wire with the status line; [written] is the body so far;
    [informational] holds the 1xx responses sent ahead of the final one,
    each with the header map it went out with. *)
Record ResponseWriter : Type := mkResponseWriter {
  header : Header;
  wroteHeader : bool;
  status : Z;
  sent : Header;
  written : bytes;
  informational : list (Z * Header)
}.

(** A writer that has sent no informational response. *)
Definition mkWriter (h : Header) (wrote : bool) (code : Z) (onWire : Header) (b : bytes)
  : ResponseWriter :=
  mkResponseWriter h wrote code onWire b [].

Definition NewResponseWriter : ResponseWriter := mkWriter [] false 0 [] [].

(** [w.Header().Set(key, value)]: the map changes whenever it is called, but
    what is on the wire does not change after the header was written. *)
Definition w_Header_Set (key value : string) (w : ResponseWriter) : ResponseWriter :=
  mkResponseWriter (Header_Set (header w) key value) (wroteHeader w) (status w) (sent w)
    (written w) (informational w).

(** [checkWriteHeaderCode]: the codes [WriteHeader] takes; on any other it
    panics. *)
Definition checkWriteHeaderCode (code : Z) : bool := (100 <=? code) && (code <=? 999).

Definition StatusSwitchingProtocols : Z := 101.

(** The 1xx codes that announce a response to come; 101 is final. *)
Definition is_informational (code : Z) : bool :=
  (100 <=? code) && (code <=? 199) && negb (code =? StatusSwitchingProtocols).

(** The status line and the headers of the final response go out. *)
Definition writeFinalHeader (code : Z) (w : ResponseWriter) : ResponseWriter :=
  mkResponseWriter (header w) true code (header w) (written w) (informational w).

(** [w.WriteHeader(code)], [None] when it panics.  After the header was
    written a call is superfluous and changes nothing, whatever the code.
    Before that, a code outside 100..999 panics, an informational code
    sends an interim response and leaves the final header unwritten, and
    any other code fixes the status and the headers. *)
Definition w_WriteHeader (code : Z) (w : ResponseWriter) : option ResponseWriter :=
  if wroteHeader w then Some w
  else if negb (checkWriteHeaderCode code) then None
  else if is_informational code then
    Some (mkResponseWriter (header w) false (status w) (sent w) (written w)
            (informational w ++ [(code, header w)]))
  else Some (writeFinalHeader code w).

(** [bodyAllowedForStatus]: 1xx, 204 and 304 carry no body. *)
Definition bodyAllowedForStatus (code : Z) : bool :=
  negb (((100 <=? code) && (code <=? 199)) || (code =? 204) || (code =? 304)).

(** [w.Write(b)]: writes the header with [StatusOK] first when no header was
    written yet, then appends to the body, unless the status in force
    allows none (the bytes are dropped and the error [ErrBodyNotAllowed]
    goes back to the caller). *)
Definition w_Write (b : bytes) (w : ResponseWriter) : ResponseWriter :=
  let w1 := if wroteHeader w then w else writeFinalHeader StatusOK w in
  if bodyAllowedForStatus (status w1) then
    mkResponseWriter (header w1) (wroteHeader w1) (status w1) (sent w1) (written w1 ++ b)
      (informational w1)
  else w1.

(** What the server does when the handler returns: a handler that wrote
    nothing gets the header written for it, with [StatusOK]. *)
Definition finishRequest (w : ResponseWriter) : ResponseWriter :=
  if wroteHeader w then w else writeFinalHeader StatusOK w.

(* ================================================================== *)
(** ** Errors of the libraries *)

Inductive Error : Type :=
| ErrSyntax              (* encoding/json: the body is not a JSON text for a task *)
| ErrUnmarshalType       (* encoding/json: a member has a value its field cannot hold *)
| ErrUnsupportedType     (* encoding/json: Marshal of a value that has no JSON form *)
| ErrRecordNotFound      (* gorm.ErrRecordNotFound *)
| ErrMissingWhereClause  (* gorm.ErrMissingWhereClause *)
| ErrConstraint          (* SQLite: UNIQUE constraint failed: tasks.id *)
| ErrSQL                 (* SQLite: the statement does not prepare *)
| ErrIO                  (* SQLite: disk I/O error, database locked, ... *)
| ErrFull                (* SQLite: the sequence has no id left (SQLITE_FULL) *)
| ErrRange.              (* the insert of an id above the signed 64-bit keys fails *)

(** Go's [err != nil]. *)
Definition is_err (e : option Error) : bool :=
  match e with Some _ => true | None => false end.

(* ================================================================== *)
(** ** encoding/json on the structs of the program *)

(** [type Response struct] of handlers/tasks.go.  [Data] is an
    [interface{}]: the handlers store nothing ([VNil]) or a task in it;
    [VFunc] stands for the values [json.Marshal] has no encoding for
    (functions, channels). *)
Inductive value : Type :=
| VNil
| VTask (t : models.Task)
| VFunc.

Record Response : Type := mkResponse {
  Status : Z;
  Message : string;
  Data : value
}.

(** The [payload interface{}] argument of [respondWithJSON]. *)
Inductive payload : Type :=
| OfResponse (r : Response)
| OfValue (v : value).

(** The JSON object of a task, members in the order of the struct's fields
    and under the names of their [json] tags. *)
Definition marshalTask (t : models.Task) : json :=
  JObj [("id", JNum (Z.of_N (models.ID t)));
        ("title", JStr (models.Title t));
        ("description", JStr (models.Description t));
        ("status", JStr (models.Status t));
        ("created_at", JTime (models.CreatedAt t));
        ("updated_at", JTime (models.UpdatedAt t))].

Definition marshalValue (v : value) : json + Error :=
  match v with
  | VNil => inl JNull
  | VTask t => inl (marshalTask t)
  | VFunc => inr ErrUnsupportedType
  end.

(** [Data] carries [omitempty]: a nil interface leaves the member out. *)
Definition marshalResponse (r : Response) : json + Error :=
  match Data r with
  | VNil => inl (JObj [("status", JNum (Status r)); ("message", JStr (Message r))])
  | d =>
      match marshalValue d with
      | inl j => inl (JObj [("status", JNum (Status r)); ("message", JStr (Message r));
                            ("data", j)])
      | inr e => inr e
      end
  end.

(** [json.Marshal(payload)]: the bytes and the error; the bytes are nil when
    there is an error. *)
Definition json_Marshal (p : payload) : bytes * option Error :=
  match (match p with OfResponse r => marshalResponse r | OfValue v => marshalValue v end) with
  | inl j => ([j], None)
  | inr e => ([], Some e)
  end.

(** The members of a task object a request body can carry, each present or
    not (a member that is [null] counts as not present: the decoder leaves
    its field alone). *)
Record Fields : Type := mkFields {
  f_id : option N;
  f_title : option string;
  f_description : option string;
  f_status : option string;
  f_created_at : option models.Time;
  f_updated_at : option models.Time
}.

(** A request body, as far as the decoder tells bodies apart: [Object o] is
    a JSON object whose members of the names above are a non-negative
    integer, strings and RFC 3339 times (other members are skipped), or the
    JSON text [null], which the decoder takes without an error and which
    sets nothing ([o] with no member); [Malformed] is every other body: no
    JSON at all, a JSON text that is neither an object nor [null], a member
    of another type. *)
Inductive RequestBody : Type :=
| Malformed
| Object (o : Fields).

Definition maxUint : N := 18446744073709551615%N.

Definition from_option {A : Type} (d : A) (o : option A) : A :=
  match o with Some a => a | None => d end.

(** [decoder.Decode(&dest)] on a body: the members present overwrite their
    fields, the others keep what [dest] had.  An [id] that a [uint] cannot
    hold is reported after the other members are stored. *)
Definition Decode (b : RequestBody) (dest : models.Task) : models.Task * option Error :=
  match b with
  | Malformed => (dest, Some ErrSyntax)
  | Object o =>
      let fits := match f_id o with Some n => N.leb n maxUint | None => true end in
      let t := models.mkTask
                 (if fits then from_option (models.ID dest) (f_id o) else models.ID dest)
                 (from_option (models.Title dest) (f_title o))
                 (from_option (models.Description dest) (f_description o))
                 (from_option (models.Status dest) (f_status o))
                 (from_option (models.CreatedAt dest) (f_created_at o))
                 (from_option (models.UpdatedAt dest) (f_updated_at o)) in
      (t, if fits then None else Some ErrUnmarshalType)
  end.

(* ================================================================== *)
(** ** strconv.Atoi *)

Definition digit (c : ascii) : option Z :=
  let n := Z.of_nat (nat_of_ascii c) in
  if (48 <=? n) && (n <=? 57) then Some (n - 48) else None.

Fixpoint digits (s : string) (acc : Z) : option Z :=
  match s with
  | EmptyString => Some acc
  | String c s' =>
      match digit c with
      | Some v => digits s' (10 * acc + v)
      | None => None
      end
  end.

(** [strconv.Atoi(s)] with its error as [None]: an optional sign, at least
    one decimal digit, nothing else, and a value an [int] holds. *)
Definition Atoi (s : string) : option Z :=
  let '(neg, rest) :=
    match s with
    | String "-" s' => (true, s')
    | String "+" s' => (false, s')
    | _ => (false, s)
    end in
  match rest with
  | EmptyString => None
  | _ =>
      match digits rest 0 with
      | Some n =>
          let v := if neg then - n else n in
          if (- 2 ^ 63 <=? v) && (v <=? 2 ^ 63 - 1) then Some v else None
      | None => None
      end
  end.

(* ================================================================== *)
(** ** database.DB: the GORM handle over the tasks table

    The table lives in SQLite; [seq] is the row of [sqlite_sequence] for it,
    the largest id the table ever held, from which an AUTOINCREMENT key
    draws the next id.  [now] is the clock GORM reads for its timestamps.
    [faults] is what the environment (file system, driver, locks) does to
    the coming calls, one entry per call: [Some e] makes the call fail with
    [e] before it touches the table.  [calls] records the calls made on the
    handle.  The keys of the table are SQLite's signed 64-bit integers: no id
    above [maxInt64] gets in, from the sequence or from a request. *)

Inductive Call : Type :=
| CallFind
| CallFirst (cond : string)
| CallCreate (t : models.Task)
| CallDelete (t : models.Task).

Record DB : Type := mkDB {
  rows : list models.Task;
  seq : N;
  now : models.Time;
  faults : list (option Error);
  calls : list Call
}.

(** Every call is recorded and takes the next entry of [faults]. *)
Definition enter (c : Call) (d : DB) : option Error * DB :=
  (hd None (faults d),
   mkDB (rows d) (seq d) (now d) (tl (faults d)) (calls d ++ [c])).

(** The database after a call that leaves the table as it was: one entry of
    [faults] consumed, the call recorded. *)
Definition after_call (c : Call) (d : DB) : DB := snd (enter c d).

(** [SELECT ... WHERE p ORDER BY id LIMIT 1]. *)
Fixpoint first_by_id (p : models.Task -> bool) (l : list models.Task)
  : option models.Task :=
  match l with
  | [] => None
  | t :: l' =>
      match first_by_id p l' with
      | Some u => if p t && N.leb (models.ID t) (models.ID u) then Some t else Some u
      | None => if p t then Some t else None
      end
  end.

Definition has_id (n : N) (t : models.Task) : bool := N.eqb (models.ID t) n.

(** The largest key of a SQLite table. *)
Definition maxInt64 : N := 9223372036854775807%N.

(** GORM sets a time field that tracks creation or update only when the
    value handed in has it zero. *)
Definition or_now (clock t : models.Time) : models.Time :=
  if Z.eqb t 0 then clock else t.

Section Storage.

(** SQLite's reading of a raw condition: the rows it keeps, or [None] when
    the text is no SQL expression over the table. *)
Variable sql_where : string -> option (models.Task -> bool).

(** How GORM reads the inline condition of [First] when it is a string:
    the empty string is no condition; a string [strconv.Atoi] accepts is a
    value for the primary key; any other string is SQL for the WHERE
    clause. *)
Definition condition (cond : string) : option (models.Task -> bool) :=
  if String.eqb cond "" then Some (fun _ => true)
  else
    match Atoi cond with
    | Some n => Some (fun t => Z.eqb (Z.of_N (models.ID t)) n)
    | None => sql_where cond
    end.

(** The outcome of a lookup on a table, faults apart. *)
Definition lookup (l : list models.Task) (cond : string) : models.Task + Error :=
  match condition cond with
  | None => inr ErrSQL
  | Some p =>
      match first_by_id p l with
      | Some t => inl t
      | None => inr ErrRecordNotFound
      end
  end.

(** [DB.Find(&tasks)]: the destination and [result.Error]. *)
Definition DB_Find (dest : list models.Task) (d : DB)
  : (list models.Task * option Error) * DB :=
  let '(f, d1) := enter CallFind d in
  match f with
  | Some e => ((dest, Some e), d1)
  | None => ((rows d1, None), d1)
  end.

(** [DB.First(&task, cond)] for a destination that is the zero task, as
    every caller passes it. *)
Definition DB_First (dest : models.Task) (cond : string) (d : DB)
  : (models.Task * option Error) * DB :=
  let '(f, d1) := enter (CallFirst cond) d in
  match f with
  | Some e => ((dest, Some e), d1)
  | None =>
      match lookup (rows d1) cond with
      | inl t => ((t, None), d1)
      | inr e => ((dest, Some e), d1)
      end
  end.

(** [DB.Create(&task)]: zero timestamps become the clock's reading; a zero
    id is drawn from the sequence, which fails once the sequence has
    reached the largest key; a non-zero id is inserted as it is, and must be
    a key SQLite can hold and new. *)
Definition DB_Create (t : models.Task) (d : DB)
  : (models.Task * option Error) * DB :=
  let '(f, d1) := enter (CallCreate t) d in
  match f with
  | Some e => ((t, Some e), d1)
  | None =>
      let t1 := models.mkTask (models.ID t) (models.Title t) (models.Description t)
                  (models.Status t)
                  (or_now (now d1) (models.CreatedAt t))
                  (or_now (now d1) (models.UpdatedAt t)) in
      if N.eqb (models.ID t) 0 then
        if N.leb maxInt64 (seq d1) then ((t1, Some ErrFull), d1)
        else
          let id := N.succ (seq d1) in
          let t2 := models.mkTask id (models.Title t1) (models.Description t1)
                      (models.Status t1) (models.CreatedAt t1) (models.UpdatedAt t1) in
          ((t2, None), mkDB (rows d1 ++ [t2]) id (now d1) (faults d1) (calls d1))
      else if N.ltb maxInt64 (models.ID t) then ((t1, Some ErrRange), d1)
      else if existsb (has_id (models.ID t)) (rows d1) then
        ((t1, Some ErrConstraint), d1)
      else
        ((t1, None),
         mkDB (rows d1 ++ [t1]) (N.max (seq d1) (models.ID t)) (now d1) (faults d1)
              (calls d1))
  end.

(** [DB.Delete(&task)]: the row of the task's id goes; a task whose id is
    zero gives no condition, and GORM refuses a delete without one. *)
Definition DB_Delete (t : models.Task) (d : DB) : option Error * DB :=
  let '(f, d1) := enter (CallDelete t) d in
  match f with
  | Some e => (Some e, d1)
  | None =>
      if N.eqb (models.ID t) 0 then (Some ErrMissingWhereClause, d1)
      else
        (None,
         mkDB (filter (fun u => negb (has_id (models.ID t) u)) (rows d1)) (seq d1)
              (now d1) (faults d1) (calls d1))
  end.

End Storage.

(* ================================================================== *)
(** ** Requests, the world of a handler, and its monad *)

(** [*http.Request], as far as the handlers look at it: the variables the
    router took from the path and the body. *)
Record Request : Type := mkRequest {
  Vars : list (string * string);
  Body : RequestBody
}.

(** Indexing a Go [map[string]string]: a missing key gives the empty
    string. *)
Fixpoint index (m : list (string * string)) (key : string) : string :=
  match m with
  | [] => ""
  | (k, v) :: m' => if String.eqb k key then v else index m' key
  end.

Definition mux_Vars (r : Request) : list (string * string) := Vars r.

(** What a handler can change: the database behind [database.DB], the
    response writer [w], and whether [r.Body] was read.  A computation
    returns its value, or [None] when it panicked: what follows a panic in
    the handler is not run. *)
Record World : Type := mkWorld {
  db : DB;
  w : ResponseWriter;
  bodyRead : bool
}.

Definition M (A : Type) : Type := World -> option A * World.

Definition ret {A : Type} (a : A) : M A := fun s => (Some a, s).

Definition bind {A B : Type} (m : M A) (k : A -> M B) : M B :=
  fun s =>
    match fst (m s) with
    | Some a => k a (snd (m s))
    | None => (None, snd (m s))
    end.

Declare Scope go_scope.
Delimit Scope go_scope with go.
Notation "x <- m ;; k" := (bind m (fun x => k))
  (at level 61, m at next level, right associativity) : go_scope.
Notation "' pat <- m ;; k" := (bind m (fun x => match x with pat => k end))
  (at level 61, pat pattern, m at next level, right associativity) : go_scope.
Notation "m ;; k" := (bind m (fun _ => k))
  (at level 61, right associativity) : go_scope.
Local Open Scope go_scope.

(** A call on the database handle. *)
Definition on_db {A : Type} (f : DB -> A * DB) : M A :=
  fun s => (Some (fst (f (db s))), mkWorld (snd (f (db s))) (w s) (bodyRead s)).

(** A call on the response writer. *)
Definition on_w (f : ResponseWriter -> ResponseWriter) : M unit :=
  fun s => (Some tt, mkWorld (db s) (f (w s)) (bodyRead s)).

(** A call on the response writer that may panic. *)
Definition on_w_or_panic (f : ResponseWriter -> option ResponseWriter) : M unit :=
  fun s =>
    match f (w s) with
    | Some w' => (Some tt, mkWorld (db s) w' (bodyRead s))
    | None => (None, s)
    end.

(** [json.NewDecoder(r.Body).Decode(&dest)]. *)
Definition decoder_Decode (r : Request) (dest : models.Task)
  : M (models.Task * option Error) :=
  fun s => (Some (Decode (Body r) dest), mkWorld (db s) (w s) true).

(* ================================================================== *)
(** ** handlers/tasks.go *)

(** [func respondWithJSON(w, code, payload)]. *)
Definition respondWithJSON (code : Z) (p : payload) : M unit :=
  let '(response, _) := json_Marshal p in
  on_w (w_Header_Set "Content-Type" "application/json") ;;
  on_w_or_panic (w_WriteHeader code) ;;
  on_w (w_Write response).

(** [func respondWithError(w, code, message)]. *)
Definition respondWithError (code : Z) (message : string) : M unit :=
  respondWithJSON code (OfResponse (mkResponse code message VNil)).

(** [func GetAllTasks(w, r)]. *)
Definition GetAllTasks (r : Request) : M unit :=
  let tasks : list models.Task := [] in
  '(tasks, err) <- on_db (DB_Find tasks) ;;
  if is_err err then
    respondWithError StatusInternalServerError "Error retrieving tasks"
  else
    ret tt.

(** [func CreateTask(w, r)]. *)
Definition CreateTask (r : Request) : M unit :=
  let task := models.zero in
  '(task, err) <- decoder_Decode r task ;;
  if is_err err then
    respondWithError StatusBadRequest "Invalid request payload"
  else
    '(task, err) <- on_db (DB_Create task) ;;
    if is_err err then
      respondWithError StatusInternalServerError "Error creating task"
    else
      respondWithJSON StatusCreated
        (OfResponse (mkResponse StatusCreated "Task created successfully" (VTask task))).

Section Handlers.

Variable sql_where : string -> option (models.Task -> bool).

(** [func GetTask(w, r)]. *)
Definition GetTask (r : Request) : M unit :=
  let params := mux_Vars r in
  let task := models.zero in
  '(task, err) <- on_db (DB_First sql_where task (index params "id")) ;;
  if is_err err then
    respondWithError StatusNotFound "Task not found"
  else
    respondWithJSON StatusOK
      (OfResponse (mkResponse StatusOK "Task retrieview sucessfully" (VTask task))).

(** [func UpdateTask(w, r)].  Nothing follows the comment [Save changes]
    but the response. *)
Definition UpdateTask (r : Request) : M unit :=
  let params := mux_Vars r in
  let task := models.zero in
  '(task, err) <- on_db (DB_First sql_where task (index params "id")) ;;
  if is_err err then
    respondWithError StatusNotFound "Tas not foun"
  else
    let updatedTask := models.zero in
    '(updatedTask, err) <- decoder_Decode r updatedTask ;;
    if is_err err then
      respondWithError StatusBadRequest "Invalid request payload"
    else
      let task := models.mkTask (models.ID task)
                    (models.Title updatedTask)
                    (models.Description updatedTask)
                    (models.Status updatedTask)
                    (models.CreatedAt task) (models.UpdatedAt task) in
      respondWithJSON StatusOK
        (OfResponse (mkResponse StatusOK "Task updated successfully" (VTask task))).

(** [func DeleteTask(w, r)].  The branch of the failed lookup has no
    [return]: the handler goes on to the delete and to the second
    response. *)
Definition DeleteTask (r : Request) : M unit :=
  let params := mux_Vars r in
  let task := models.zero in
  '(task, err) <- on_db (DB_First sql_where task (index params "id")) ;;
  (if is_err err then
     respondWithError StatusNotFound "Task not found"
   else
     ret tt) ;;
  _ <- on_db (DB_Delete task) ;;
  respondWithJSON StatusOK
    (OfResponse (mkResponse StatusOK "Task deleted successfully" VNil)).

End Handlers.

(** The server around a handler: a new response writer for the request, the
    handler, and the end of the request.  When the handler panicked the
    server drops the connection: the response stays as the handler left
    it. *)
Definition serve (h : Request -> M unit) (d : DB) (r : Request) : World :=
  let s := snd (h r (mkWorld d NewResponseWriter false)) in
  match fst (h r (mkWorld d NewResponseWriter false)) with
  | Some _ => mkWorld (db s) (finishRequest (w s)) (bodyRead s)
  | None => s
  end.

(* ================================================================== *)
(** ** The envelope contract, and the data of the examples *)

(** The envelope of a response that carries no data. *)
Definition envelope (code : Z) (message : string) : json :=
  JObj [("status", JNum code); ("message", JStr message)].

(** The envelope of a response whose data is a task. *)
Definition envelope_task (code : Z) (message : string) (t : models.Task) : json :=
  JObj [("status", JNum code); ("message", JStr message); ("data", marshalTask t)].

(** A JSON text is an envelope for a status code: an object with the
    integer [status] equal to the code, a string [message], and at most a
    [data] member after them. *)
Definition is_envelope (code : Z) (j : json) : bool :=
  match j with
  | JObj ((k1, JNum n) :: (k2, JStr _) :: rest) =>
      String.eqb k1 "status" && String.eqb k2 "message" && Z.eqb n code
      && match rest with
         | [] => true
         | [(k3, _)] => String.eqb k3 "data"
         | _ => false
         end
  | _ => false
  end.

(** The response on the wire is one envelope that mirrors its status line. *)
Definition one_envelope (x : ResponseWriter) : bool :=
  match written x with
  | [j] => is_envelope (status x) j
  | _ => false
  end.

(** The reading of the create contract under which nothing of the identity
    of a record comes from the request: whatever record a create adds has
    the next id of the sequence and the clock's reading in both
    timestamps. *)
Definition body_identity_ignored : Prop :=
  forall (d : DB) (r : Request) (t : models.Task),
    snd (Decode (Body r) models.zero) = None ->
    In t (rows (db (serve CreateTask d r))) ->
    ~ In t (rows d) ->
    models.ID t = N.succ (seq d)
    /\ models.CreatedAt t = now d /\ models.UpdatedAt t = now d.

(** The status codes of a final response that carries a body: what the
    handlers pass to [respondWithJSON] are such codes. *)
Definition plain_status (code : Z) : bool :=
  (200 <=? code) && (code <=? 999) && negb (code =? 204) && negb (code =? 304).

(** The reading of [respondWithJSON] under which the status line of the
    response is the code it was given, on whatever response it is called. *)
Definition writes_given_status : Prop :=
  forall (code : Z) (p : payload) (s : World),
    plain_status code = true ->
    status (w (snd (respondWithJSON code p s))) = code.

Module Fixtures.

(** An engine for which no raw condition is SQL; the examples only use
    numeric ids. *)
Definition no_sql : string -> option (models.Task -> bool) := fun _ => None.

Definition emptyStore : DB := mkDB [] 0%N 1000 [] [].

Definition learnGo : models.Task :=
  models.mkTask 1%N "Learn Go" "Study" "pending" 1000 1000.

(** The store after the first create of the scenario, some time later. *)
Definition store1 : DB := mkDB [learnGo] 1%N 2000 [] [].

Definition completed : Fields :=
  mkFields None (Some "Learn Go") (Some "Study") (Some "completed") None None.

Definition onlyStatus : Fields :=
  mkFields (Some 9%N) None None (Some "completed") (Some 5) None.

Definition withIdentity : Fields :=
  mkFields (Some 42%N) (Some "Learn Go") (Some "Study") (Some "pending")
           (Some 5) (Some 7).

Definition at_id (id : string) (b : RequestBody) : Request :=
  mkRequest [("id", id)] b.

Definition no_id (b : RequestBody) : Request := mkRequest [] b.

(** The body of a request that sends none: the decoder finds no JSON. *)
Definition noBody : RequestBody := Malformed.

Definition pending : Fields :=
  mkFields None (Some "Learn Go") (Some "Study") (Some "pending") None None.

Definition learnGoCompleted : models.Task :=
  models.mkTask 1%N "Learn Go" "Study" "completed" 1000 1000.

Definition fromBody : models.Task :=
  models.mkTask 42%N "Learn Go" "Study" "pending" 5 7.

End Fixtures.

(* ================================================================== *)
(** ** main.go: the router

    The routes [main] registers on the gorilla/mux router, in its order, and
    the router's search among them.  The file server behind the last route
    is not part of the model. *)

Inductive Handler : Type :=
| HGetAllTasks
| HGetTask
| HCreateTask
| HUpdateTask
| HDeleteTask
| HFileServer.

(** The three shapes of path template [main] uses: a fixed path, a fixed
    path followed by one variable up to the end (["/api/tasks/{id}"]), and a
    prefix ([PathPrefix]). *)
Inductive Template : Type :=
| Exact (p : string)
| WithVar (prefix name : string)
| Prefix (p : string).

(** A route: its template, the methods of [Methods(...)] (none: every
    method) and its handler. *)
Record Route : Type := mkRoute {
  template : Template;
  methods : list string;
  handler : Handler
}.

Definition router : list Route :=
  [mkRoute (Exact "/api/tasks") ["GET"] HGetAllTasks;
   mkRoute (WithVar "/api/tasks/" "id") ["GET"] HGetTask;
   mkRoute (Exact "/api/tasks") ["POST"] HCreateTask;
   mkRoute (WithVar "/api/tasks/" "id") ["PUT"] HUpdateTask;
   mkRoute (WithVar "/api/tasks/" "id") ["DELETE"] HDeleteTask;
   mkRoute (Prefix "/") [] HFileServer].

Fixpoint strip_prefix (p s : string) : option string :=
  match p with
  | EmptyString => Some s
  | String a p' =>
      match s with
      | EmptyString => None
      | String b s' => if Ascii.eqb a b then strip_prefix p' s' else None
      end
  end.

Fixpoint no_slash (s : string) : bool :=
  match s with
  | EmptyString => true
  | String c s' => negb (Ascii.eqb c "/") && no_slash s'
  end.

(** The path matcher of a route and the variables it extracts: a variable
    matches [[^/]+], one character or more and no slash. *)
Definition match_path (t : Template) (path : string) : option (list (string * string)) :=
  match t with
  | Exact p => if String.eqb p path then Some [] else None
  | WithVar prefix name =>
      match strip_prefix prefix path with
      | Some v => if negb (String.eqb v "") && no_slash v then Some [(name, v)] else None
      | None => None
      end
  | Prefix p =>
      match strip_prefix p path with
      | Some _ => Some []
      | None => None
      end
  end.

Definition match_method (ms : list string) (method : string) : bool :=
  match ms with
  | [] => true
  | _ => existsb (String.eqb method) ms
  end.

Inductive RouteMatch : Type :=
| Matched (h : Handler) (vars : list (string * string))
| MethodNotAllowed
| NotFound.

(** [Router.Match]: the first route whose path and method both match; a
    route whose path matches and whose method does not is remembered
    ([mismatch]) and the search goes on. *)
Fixpoint Router_Match (routes : list Route) (method path : string) (mismatch : bool)
  : RouteMatch :=
  match routes with
  | [] => if mismatch then MethodNotAllowed else NotFound
  | r :: rest =>
      match match_path (template r) path with
      | None => Router_Match rest method path mismatch
      | Some vars =>
          if match_method (methods r) method then Matched (handler r) vars
          else Router_Match rest method path true
      end
  end.

(** The elements of a path, the texts between its slashes. *)
Fixpoint segments (s : string) : list string :=
  match s with
  | EmptyString => [""]
  | String c s' =>
      if Ascii.eqb c "/" then "" :: segments s'
      else
        match segments s' with
        | seg :: rest => String c seg :: rest
        | [] => [String c ""]
        end
  end.

(** The elements [path.Clean] keeps of a path that starts with a slash:
    empty elements and [.] go, [..] goes with the element before it, or
    alone at the root. *)
Fixpoint clean_segments (segs stack : list string) : list string :=
  match segs with
  | [] => rev stack
  | seg :: rest =>
      if String.eqb seg "" || String.eqb seg "." then clean_segments rest stack
      else if String.eqb seg ".." then clean_segments rest (tl stack)
      else clean_segments rest (seg :: stack)
  end.

Fixpoint join_slash (l : list string) : string :=
  match l with
  | [] => ""
  | [s] => s
  | s :: l' => String.append s (String "/" (join_slash l'))
  end.

(** [path.Clean(p)] for a path that starts with a slash. *)
Definition path_Clean (p : string) : string :=
  String "/" (join_slash (clean_segments (segments p) [])).

Fixpoint ends_with_slash (s : string) : bool :=
  match s with
  | EmptyString => false
  | String c s' =>
      match s' with
      | EmptyString => Ascii.eqb c "/"
      | String _ _ => ends_with_slash s'
      end
  end.

(** mux's [cleanPath]: the path made to start with a slash and cleaned,
    with the slash at its end put back. *)
Definition cleanPath (p : string) : string :=
  match p with
  | EmptyString => "/"
  | String c _ =>
      let p1 := if Ascii.eqb c "/" then p else String "/" p in
      let np := path_Clean p1 in
      if ends_with_slash p1 && negb (String.eqb np "/") then String.append np "/" else np
  end.

(** Where [Router.ServeHTTP] takes a request: a path that is not clean is
    answered with a redirect (301) to the clean one, before any route is
    looked at; a clean path goes to the search among the routes. *)
Inductive Dispatch : Type :=
| Redirect (to : string)
| Routed (m : RouteMatch).

Definition Router_dispatch (method path : string) : Dispatch :=
  if String.eqb (cleanPath path) path then Routed (Router_Match router method path false)
  else Redirect (cleanPath path).

(** The handler function behind a route, the file server apart. *)
Definition handler_func (sql_where : string -> option (models.Task -> bool))
    (h : Handler) : option (Request -> M unit) :=
  match h with
  | HGetAllTasks => Some GetAllTasks
  | HGetTask => Some (GetTask sql_where)
  | HCreateTask => Some CreateTask
  | HUpdateTask => Some (UpdateTask sql_where)
  | HDeleteTask => Some (DeleteTask sql_where)
  | HFileServer => None
  end.

(** A request through the router of [main] to a handler of the API: the
    world after it, or [None] when the request goes elsewhere (a redirect
    to the clean path, the file server, no route). *)
Definition ServeHTTP (sql_where : string -> option (models.Task -> bool))
    (method path : string) (body : RequestBody) (d : DB) : option World :=
  match Router_dispatch method path with
  | Routed (Matched h vars) =>
      match handler_func sql_where h with
      | Some f => Some (serve f d (mkRequest vars body))
      | None => None
      end
  | _ => None
  end.

(** What a route with the variable [id] hands to its handler: the path is
    ["/api/tasks/"] followed by the id, and the id is not empty and has no
    slash. *)
Definition id_route (path : string) (vars : list (string * string)) : Prop :=
  exists id, path = String.append "/api/tasks/" id /\ vars = [("id", id)]
             /\ id <> "" /\ no_slash id = true.

Definition api_methods : list string := ["GET"; "POST"; "PUT"; "DELETE"].

(* ================================================================== *)
(** ** The table as SQLite keeps it *)

(** The primary key is unique and positive, and the sequence is at or above
    every id in the table. *)
Definition table_ok (d : DB) : Prop :=
  NoDup (map models.ID (rows d))
  /\ Forall (fun t => (0 < models.ID t <= seq d)%N) (rows d).

(** The writer after one [respondWithJSON] on the writer of a new request. *)
Definition answer (code : Z) (b : bytes) : ResponseWriter :=
  mkWriter [("Content-Type", "application/json")] true code
           [("Content-Type", "application/json")] b.

Module MoreFixtures.

Definition learnRocq : models.Task :=
  models.mkTask 2%N "Learn Rocq" "Prove" "pending" 2000 2000.

Definition store2 : DB := mkDB [Fixtures.learnGo; learnRocq] 2%N 3000 [] [].

(** An engine that knows one raw condition, the tautology. *)
Definition sql_tautology : string -> option (models.Task -> bool) :=
  fun s => if String.eqb s "1=1" then Some (fun _ => true) else None.

End MoreFixtures.

(* ================================================================== *)
(** ** The response helpers *)

Lemma Header_Get_Set (h : Header) (key value : string) :
  Header_Get (Header_Set h key value) key = Some value.
Proof.
  induction h as [|[k v] h IH]; cbn.
  - now rewrite String.eqb_refl.
  - destruct (String.eqb k key) eqn:E; cbn; rewrite E; [reflexivity | exact IH].
Qed.

(** An error of [json.Marshal] comes with no bytes. *)
Lemma json_Marshal_error (p : payload) :
  is_err (snd (json_Marshal p)) = true -> fst (json_Marshal p) = [].
Proof.
  unfold json_Marshal.
  destruct (match p with OfResponse r => marshalResponse r | OfValue v => marshalValue v end);
    cbn; [discriminate | reflexivity].
Qed.

(** A code between 200 and 999 other than 204 and 304 is taken by
    [WriteHeader] as the final status and allows a body. *)
Lemma plain_status_spec (code : Z) :
  200 <= code <= 999 -> code <> 204 -> code <> 304 -> plain_status code = true.
Proof.
  intros [Hlo Hhi] H204 H304. unfold plain_status.
  apply Z.leb_le in Hlo. apply Z.leb_le in Hhi.
  apply Z.eqb_neq in H204. apply Z.eqb_neq in H304.
  now rewrite Hlo, Hhi, H204, H304.
Qed.

Lemma plain_status_final (code : Z) :
  plain_status code = true ->
  checkWriteHeaderCode code = true /\ is_informational code = false
  /\ bodyAllowedForStatus code = true.
Proof.
  unfold plain_status, checkWriteHeaderCode, is_informational, bodyAllowedForStatus.
  intros H.
  apply andb_true_iff in H. destruct H as [H H304].
  apply andb_true_iff in H. destruct H as [H H204].
  apply andb_true_iff in H. destruct H as [Hlo Hhi].
  apply negb_true_iff in H204, H304. apply Z.leb_le in Hlo, Hhi.
  assert (E1 : (100 <=? code) = true) by (apply Z.leb_le; lia).
  assert (E2 : (code <=? 199) = false) by (apply Z.leb_gt; lia).
  assert (E3 : (code <=? 999) = true) by (apply Z.leb_le; lia).
  rewrite E1, E2, E3, H204, H304. repeat split.
Qed.

(** On the writer of a new request [respondWithJSON] decides the whole
    response. *)
Lemma respondWithJSON_new (code : Z) (p : payload) (d : DB) (b : bool) :
  plain_status code = true ->
  respondWithJSON code p (mkWorld d NewResponseWriter b) =
  (Some tt,
   mkWorld d
     (mkWriter [("Content-Type", "application/json")] true code
               [("Content-Type", "application/json")] (fst (json_Marshal p)))
     b).
Proof.
  intros H. destruct (plain_status_final code H) as (Hc & Hi & Hb).
  unfold respondWithJSON. destruct (json_Marshal p) as [response e].
  unfold bind, on_w, on_w_or_panic, w_WriteHeader, w_Write, w_Header_Set, writeFinalHeader.
  cbn. rewrite Hc, Hi. cbn. rewrite Hb. reflexivity.
Qed.

(** After a response was written, a second [respondWithJSON] only appends
    its bytes to the body: status line and headers stay. *)
Lemma respondWithJSON_again (code : Z) (p : payload) (s : World) :
  wroteHeader (w s) = true ->
  bodyAllowedForStatus (status (w s)) = true ->
  respondWithJSON code p s =
  (Some tt,
   mkWorld (db s)
     (mkResponseWriter (Header_Set (header (w s)) "Content-Type" "application/json") true
        (status (w s)) (sent (w s)) (written (w s) ++ fst (json_Marshal p))
        (informational (w s)))
     (bodyRead s)).
Proof.
  intros H Hb.
  unfold respondWithJSON. destruct (json_Marshal p) as [response e].
  unfold bind, on_w, on_w_or_panic, w_WriteHeader, w_Write, w_Header_Set, writeFinalHeader.
  cbn. rewrite !H. cbn. rewrite ?H, ?Hb. reflexivity.
Qed.

(** C10, as the code has it.  [respondWithJSON] drops the error of
    [json.Marshal] and, for a status code from 200 to 999 that allows a
    body, never panics and always sets Content-Type in the header map.  On a
    response whose header is not yet written it writes the code it was
    given and puts Content-Type on the wire; on a response whose header was
    written before, status line and headers on the wire stay what they
    were.  The body gets the marshalled bytes, none at all when the payload
    does not marshal (or when the status in force allows no body).  The
    store is not touched. *)
Theorem respondWithJSON_discards_marshal_error (code : Z) (p : payload) (s : World) :
  200 <= code <= 999 -> code <> 204 -> code <> 304 ->
  fst (respondWithJSON code p s) = Some tt
  /\ Header_Get (header (w (snd (respondWithJSON code p s)))) "Content-Type"
     = Some "application/json"
  /\ wroteHeader (w (snd (respondWithJSON code p s))) = true
  /\ status (w (snd (respondWithJSON code p s)))
     = (if wroteHeader (w s) then status (w s) else code)
  /\ sent (w (snd (respondWithJSON code p s)))
     = (if wroteHeader (w s) then sent (w s)
        else Header_Set (header (w s)) "Content-Type" "application/json")
  /\ written (w (snd (respondWithJSON code p s)))
     = written (w s)
       ++ (if is_err (snd (json_Marshal p))
              || negb (bodyAllowedForStatus (status (w (snd (respondWithJSON code p s)))))
           then [] else fst (json_Marshal p))
  /\ db (snd (respondWithJSON code p s)) = db s.
Proof.
  intros Hr H204 H304.
  destruct (plain_status_final code (plain_status_spec code Hr H204 H304)) as (Hc & Hi & Hb).
  assert (Hm := json_Marshal_error p).
  unfold respondWithJSON. destruct (json_Marshal p) as [response e].
  cbn [fst snd] in Hm |- *.
  unfold bind, on_w, on_w_or_panic, w_WriteHeader, w_Write, w_Header_Set, writeFinalHeader.
  cbn. destruct (wroteHeader (w s)) eqn:Hw; cbn; rewrite ?Hw; cbn.
  - destruct (bodyAllowedForStatus (status (w s))) eqn:Ha; cbn; rewrite ?Ha; cbn.
    + rewrite orb_false_r. repeat split; try apply Header_Get_Set.
      destruct (is_err e) eqn:E; [now rewrite (Hm eq_refl) | reflexivity].
    + rewrite orb_true_r, app_nil_r. repeat split; apply Header_Get_Set.
  - rewrite Hc, Hi. cbn. rewrite ?Hb. cbn. rewrite ?Hb, orb_false_r.
    repeat split; try apply Header_Get_Set.
    destruct (is_err e) eqn:E; [now rewrite (Hm eq_refl) | reflexivity].
Qed.

(* ================================================================== *)
(** ** The handlers in closed form *)

Lemma GetAllTasks_run (d : DB) (r : Request) :
  serve GetAllTasks d r =
  mkWorld (after_call CallFind d)
    (if is_err (hd None (faults d))
     then answer StatusInternalServerError
            [envelope StatusInternalServerError "Error retrieving tasks"]
     else mkWriter [] true StatusOK [] [])
    false.
Proof.
  unfold serve, GetAllTasks, bind, ret, on_db, DB_Find, after_call, enter.
  cbn [fst snd db w bodyRead rows seq now faults calls].
  destruct (hd None (faults d)); cbn [fst snd db w bodyRead is_err].
  - unfold respondWithError. rewrite respondWithJSON_new by reflexivity. reflexivity.
  - reflexivity.
Qed.

Lemma CreateTask_run (d : DB) (r : Request) :
  serve CreateTask d r =
  match Decode (Body r) models.zero with
  | (_, Some _) =>
      mkWorld d (answer StatusBadRequest
                   [envelope StatusBadRequest "Invalid request payload"]) true
  | (t, None) =>
      mkWorld (snd (DB_Create t d))
        (match snd (fst (DB_Create t d)) with
         | Some _ => answer StatusInternalServerError
                       [envelope StatusInternalServerError "Error creating task"]
         | None => answer StatusCreated
                     [envelope_task StatusCreated "Task created successfully"
                        (fst (fst (DB_Create t d)))]
         end)
        true
  end.
Proof.
  unfold serve, CreateTask, bind, decoder_Decode, on_db.
  cbn [fst snd db w bodyRead].
  destruct (Decode (Body r) models.zero) as [t [e|]]; cbn [fst snd db w bodyRead is_err].
  - unfold respondWithError. rewrite respondWithJSON_new by reflexivity. reflexivity.
  - destruct (DB_Create t d) as [[t' [e|]] d']; cbn [fst snd db w bodyRead is_err].
    + unfold respondWithError. rewrite respondWithJSON_new by reflexivity. reflexivity.
    + rewrite respondWithJSON_new by reflexivity. reflexivity.
Qed.

Section ById.

Variable sql_where : string -> option (models.Task -> bool).

Lemma DB_First_run (dest : models.Task) (cond : string) (d : DB) :
  DB_First sql_where dest cond d =
  (match hd None (faults d) with
   | Some e => (dest, Some e)
   | None =>
       match lookup sql_where (rows d) cond with
       | inl t => (t, None)
       | inr e => (dest, Some e)
       end
   end, after_call (CallFirst cond) d).
Proof.
  unfold DB_First, after_call, enter. cbn.
  destruct (hd None (faults d)); [reflexivity|].
  destruct (lookup sql_where (rows d) cond); reflexivity.
Qed.

(** A lookup that finds no row fails, whatever the environment does. *)
Lemma DB_First_fails (dest : models.Task) (cond : string) (d : DB) (e : Error) :
  lookup sql_where (rows d) cond = inr e ->
  exists e', fst (DB_First sql_where dest cond d) = (dest, Some e').
Proof.
  intros H. rewrite DB_First_run, H. cbn.
  destruct (hd None (faults d)); eauto.
Qed.

(** No row with the id of a numeric path parameter: the lookup reports
    [ErrRecordNotFound]. *)
Lemma first_by_id_none (p : models.Task -> bool) (l : list models.Task) :
  (forall t, In t l -> p t = false) -> first_by_id p l = None.
Proof.
  induction l as [|t l IH]; intros H; cbn; [reflexivity|].
  rewrite IH by (intros u Hu; apply H; now right).
  now rewrite (H t (or_introl eq_refl)).
Qed.

Lemma lookup_absent (l : list models.Task) (cond : string) (n : Z) :
  cond <> "" ->
  Atoi cond = Some n ->
  (forall t, In t l -> Z.of_N (models.ID t) <> n) ->
  lookup sql_where l cond = inr ErrRecordNotFound.
Proof.
  intros Hne Ha Hno. unfold lookup, condition.
  destruct (String.eqb_spec cond "") as [->|_]; [congruence|].
  rewrite Ha, first_by_id_none; [reflexivity|].
  intros t Ht. apply Z.eqb_neq. now apply Hno.
Qed.

Lemma GetTask_run (d : DB) (r : Request) :
  serve (GetTask sql_where) d r =
  mkWorld (after_call (CallFirst (index (Vars r) "id")) d)
    (match fst (DB_First sql_where models.zero (index (Vars r) "id") d) with
     | (_, Some _) => answer StatusNotFound [envelope StatusNotFound "Task not found"]
     | (t, None) => answer StatusOK
                      [envelope_task StatusOK "Task retrieview sucessfully" t]
     end)
    false.
Proof.
  unfold serve, GetTask, bind, on_db, mux_Vars. cbn [fst snd db w bodyRead].
  rewrite DB_First_run. cbn [fst snd db w bodyRead].
  set (o := match hd None (faults d) with Some e => _ | None => _ end).
  destruct o as [t [e|]]; cbn [fst snd db w bodyRead is_err].
  - unfold respondWithError. rewrite respondWithJSON_new by reflexivity. reflexivity.
  - rewrite respondWithJSON_new by reflexivity. reflexivity.
Qed.

Lemma UpdateTask_run (d : DB) (r : Request) :
  serve (UpdateTask sql_where) d r =
  match fst (DB_First sql_where models.zero (index (Vars r) "id") d) with
  | (_, Some _) =>
      mkWorld (after_call (CallFirst (index (Vars r) "id")) d)
        (answer StatusNotFound [envelope StatusNotFound "Tas not foun"]) false
  | (t, None) =>
      mkWorld (after_call (CallFirst (index (Vars r) "id")) d)
        (match Decode (Body r) models.zero with
         | (_, Some _) => answer StatusBadRequest
                            [envelope StatusBadRequest "Invalid request payload"]
         | (u, None) =>
             answer StatusOK
               [envelope_task StatusOK "Task updated successfully"
                  (models.mkTask (models.ID t) (models.Title u) (models.Description u)
                     (models.Status u) (models.CreatedAt t) (models.UpdatedAt t))]
         end)
        true
  end.
Proof.
  unfold serve, UpdateTask, bind, on_db, decoder_Decode, mux_Vars.
  cbn [fst snd db w bodyRead].
  rewrite DB_First_run. cbn [fst snd db w bodyRead].
  set (o := match hd None (faults d) with Some e => _ | None => _ end).
  destruct o as [t [e|]]; cbn [fst snd db w bodyRead is_err].
  - unfold respondWithError. rewrite respondWithJSON_new by reflexivity. reflexivity.
  - destruct (Decode (Body r) models.zero) as [u [e|]]; cbn [fst snd db w bodyRead is_err].
    + unfold respondWithError. rewrite respondWithJSON_new by reflexivity. reflexivity.
    + rewrite respondWithJSON_new by reflexivity. reflexivity.
Qed.

Lemma DeleteTask_run (d : DB) (r : Request) :
  serve (DeleteTask sql_where) d r =
  match fst (DB_First sql_where models.zero (index (Vars r) "id") d) with
  | (t, Some _) =>
      mkWorld (snd (DB_Delete t (after_call (CallFirst (index (Vars r) "id")) d)))
        (answer StatusNotFound
           [envelope StatusNotFound "Task not found";
            envelope StatusOK "Task deleted successfully"])
        false
  | (t, None) =>
      mkWorld (snd (DB_Delete t (after_call (CallFirst (index (Vars r) "id")) d)))
        (answer StatusOK [envelope StatusOK "Task deleted successfully"])
        false
  end.
Proof.
  unfold serve, DeleteTask, bind, on_db, mux_Vars. cbn [fst snd db w bodyRead].
  rewrite DB_First_run. cbn [fst snd db w bodyRead].
  set (o := match hd None (faults d) with Some e => _ | None => _ end).
  destruct o as [t [e|]]; cbn [fst snd db w bodyRead is_err].
  - unfold respondWithError. rewrite respondWithJSON_new by reflexivity.
    cbn [fst snd db w bodyRead].
    rewrite respondWithJSON_again by reflexivity. reflexivity.
  - unfold ret. cbn [fst snd db w bodyRead].
    rewrite respondWithJSON_new by reflexivity. reflexivity.
Qed.

(* ================================================================== *)
(** ** The handlers that look a task up by the id of the path *)

(** C9.  [GetTask] answers 404 exactly when the lookup reports an error,
    whichever error it is (a fault of the environment such as an I/O
    failure as much as a missing row), and 200 otherwise; it never answers
    500. *)
Theorem GetTask_only_200_or_404 (d : DB) (r : Request) :
  status (w (serve (GetTask sql_where) d r))
  = (if is_err (snd (fst (DB_First sql_where models.zero (index (Vars r) "id") d)))
     then StatusNotFound else StatusOK)
  /\ Z.eqb (status (w (serve (GetTask sql_where) d r))) StatusInternalServerError
     = false.
Proof.
  rewrite GetTask_run. cbn [w].
  destruct (fst (DB_First sql_where models.zero (index (Vars r) "id") d)) as [t [e|]];
    split; reflexivity.
Qed.


(** C8.  In [UpdateTask] the lookup comes before the body: when the id of
    the path matches no row the answer is the 404 envelope, whatever the
    body is, well-formed or not; the body is not read and the table is
    not changed. *)
Theorem UpdateTask_missing_id_404 (d : DB) (r : Request) (e : Error) :
  lookup sql_where (rows d) (index (Vars r) "id") = inr e ->
  status (w (serve (UpdateTask sql_where) d r)) = StatusNotFound
  /\ written (w (serve (UpdateTask sql_where) d r))
     = [envelope StatusNotFound "Tas not foun"]
  /\ bodyRead (serve (UpdateTask sql_where) d r) = false
  /\ rows (db (serve (UpdateTask sql_where) d r)) = rows d
  /\ seq (db (serve (UpdateTask sql_where) d r)) = seq d.
Proof.
  intros H.
  destruct (DB_First_fails models.zero _ d e H) as [e' He'].
  rewrite UpdateTask_run, He'. repeat split.
Qed.

(** The response of an update of an existing task whose body parses: 200
    with the record the handler has built in memory.  Title, description
    and status are those of the body, the empty string for each one the
    body leaves out; id, creation time and modification time are those of
    the row the lookup found.  The id and the timestamps of the body appear
    nowhere. *)
Lemma UpdateTask_response_fields
    (d : DB) (r : Request) (t : models.Task) (o : Fields) :
  hd None (faults d) = None ->
  lookup sql_where (rows d) (index (Vars r) "id") = inl t ->
  Body r = Object o ->
  snd (Decode (Body r) models.zero) = None ->
  status (w (serve (UpdateTask sql_where) d r)) = StatusOK
  /\ written (w (serve (UpdateTask sql_where) d r))
     = [envelope_task StatusOK "Task updated successfully"
          (models.mkTask (models.ID t)
             (from_option "" (f_title o))
             (from_option "" (f_description o))
             (from_option "" (f_status o))
             (models.CreatedAt t) (models.UpdatedAt t))].
Proof.
  intros Hf Hl Hb Hd.
  rewrite UpdateTask_run, DB_First_run, Hf, Hl. cbn [fst].
  rewrite Hb in Hd |- *.
  destruct (Decode (Object o) models.zero) as [u x] eqn:E.
  cbn [snd] in Hd. subst x.
  unfold Decode in E. injection E as E _. subst u. cbn.
  split; reflexivity.
Qed.

(** [DeleteTask] after a lookup that found no row: the 404 envelope, then
    the call of [Delete] on the zero task, then a second envelope that
    announces 200 behind the first.  The status line stays 404 and the
    table is as before: a delete of the zero task never reaches it. *)
Lemma DeleteTask_missing_id (d : DB) (r : Request) (e : Error) :
  lookup sql_where (rows d) (index (Vars r) "id") = inr e ->
  status (w (serve (DeleteTask sql_where) d r)) = StatusNotFound
  /\ written (w (serve (DeleteTask sql_where) d r))
     = [envelope StatusNotFound "Task not found";
        envelope StatusOK "Task deleted successfully"]
  /\ calls (db (serve (DeleteTask sql_where) d r))
     = calls d ++ [CallFirst (index (Vars r) "id"); CallDelete models.zero]
  /\ rows (db (serve (DeleteTask sql_where) d r)) = rows d.
Proof.
  intros H.
  destruct (DB_First_fails models.zero _ d e H) as [e' He'].
  rewrite DeleteTask_run, He'. cbn [w db].
  unfold DB_Delete, after_call, enter. cbn [fst snd rows seq now faults calls].
  destruct (hd None (tl (faults d))); cbn [fst snd rows seq now faults calls N.eqb models.ID models.zero];
    rewrite <- app_assoc; repeat split.
Qed.

End ById.

(* ================================================================== *)
(** ** List and create *)

(** [GetAllTasks] when the read succeeds: the handler returns without a
    call on the writer, so the server sends a bare 200 with no header of the
    handler and no body. *)
Lemma GetAllTasks_success_is_silent (d : DB) (r : Request) :
  hd None (faults d) = None ->
  w (serve GetAllTasks d r) = mkWriter [] true StatusOK [] [].
Proof.
  intros H. rewrite GetAllTasks_run, H. reflexivity.
Qed.

(** [GetAllTasks] when the read fails: the 500 envelope. *)
Lemma GetAllTasks_failure (d : DB) (r : Request) (e : Error) :
  hd None (faults d) = Some e ->
  status (w (serve GetAllTasks d r)) = StatusInternalServerError
  /\ written (w (serve GetAllTasks d r))
     = [envelope StatusInternalServerError "Error retrieving tasks"].
Proof.
  intros H. rewrite GetAllTasks_run, H. split; reflexivity.
Qed.

(** C6.  A create whose body does not parse answers the 400 envelope and
    leaves the database exactly as it was: no call reaches it, so the table
    and its sequence, and with them whatever a later read of the table
    returns, are unchanged. *)
Theorem CreateTask_bad_body_400 (d : DB) (r : Request) :
  is_err (snd (Decode (Body r) models.zero)) = true ->
  status (w (serve CreateTask d r)) = StatusBadRequest
  /\ written (w (serve CreateTask d r))
     = [envelope StatusBadRequest "Invalid request payload"]
  /\ db (serve CreateTask d r) = d
  /\ fst (fst (DB_Find [] (db (serve CreateTask d r)))) = fst (fst (DB_Find [] d)).
Proof.
  intros H. rewrite CreateTask_run.
  destruct (Decode (Body r) models.zero) as [u [e|]]; [|discriminate].
  repeat split.
Qed.

(** The task [CreateTask] hands to the storage layer is the decoded body,
    with the id and the timestamps the body gave. *)
Lemma CreateTask_passes_body (d : DB) (r : Request) :
  snd (Decode (Body r) models.zero) = None ->
  calls (db (serve CreateTask d r))
  = calls d ++ [CallCreate (fst (Decode (Body r) models.zero))].
Proof.
  intros H. rewrite CreateTask_run.
  destruct (Decode (Body r) models.zero) as [u x]. cbn [fst snd] in H |- *.
  subst x. cbn [db].
  unfold DB_Create, enter. cbn [fst snd rows seq now faults calls].
  destruct (hd None (faults d)); [reflexivity|].
  destruct (N.eqb _ 0); [destruct (N.leb _ _); reflexivity|].
  destruct (N.ltb _ _); [reflexivity|].
  destruct (existsb _ _); reflexivity.
Qed.

(** C4, as the code has it.  A create whose body parses and whose insert
    succeeds answers 201 with the record it appended to the table.  In that
    record an id the body left out (or gave as zero) is the successor of the
    largest id the table ever held, and a timestamp the body left out (or
    gave as zero) is the time of the insert; an id or a timestamp the body
    gave is there as the body gave it.  The sequence never goes back.  The
    insert succeeds when the environment lets it, the id of the body is new
    and a key SQLite can hold, and the sequence has an id left. *)
Theorem CreateTask_identity_fields (d : DB) (r : Request) :
  hd None (faults d) = None ->
  snd (Decode (Body r) models.zero) = None ->
  (models.ID (fst (Decode (Body r) models.zero)) <= maxInt64)%N ->
  (seq d < maxInt64)%N ->
  existsb (has_id (models.ID (fst (Decode (Body r) models.zero)))) (rows d) = false ->
  let t := fst (Decode (Body r) models.zero) in
  let created :=
    models.mkTask
      (if N.eqb (models.ID t) 0 then N.succ (seq d) else models.ID t)
      (models.Title t) (models.Description t) (models.Status t)
      (if Z.eqb (models.CreatedAt t) 0 then now d else models.CreatedAt t)
      (if Z.eqb (models.UpdatedAt t) 0 then now d else models.UpdatedAt t) in
  status (w (serve CreateTask d r)) = StatusCreated
  /\ written (w (serve CreateTask d r))
     = [envelope_task StatusCreated "Task created successfully" created]
  /\ rows (db (serve CreateTask d r)) = rows d ++ [created]
  /\ seq (db (serve CreateTask d r)) = N.max (seq d) (models.ID created).
Proof.
  intros Hf Hd Hid Hseq Hnew t created. subst created t.
  rewrite CreateTask_run.
  destruct (Decode (Body r) models.zero) as [t x]. cbn [fst snd] in Hd, Hid, Hnew |- *.
  subst x.
  apply N.leb_gt in Hseq. apply N.ltb_ge in Hid.
  unfold DB_Create, enter. cbn [fst snd rows seq now faults calls].
  rewrite Hf, Hseq, Hid, Hnew. unfold or_now.
  destruct (N.eqb (models.ID t) 0) eqn:E; cbn.
  - repeat split; try reflexivity. lia.
  - repeat split; reflexivity.
Qed.

(* ================================================================== *)
(** ** The handlers on the scenario of the specification *)

Import Fixtures.

(** C1.  The update of task 1 to status completed answers 200 with the
    completed task, but no call writes it to the table: the row is the old
    one, and the get that follows returns the task with status pending. *)
Theorem UpdateTask_update_is_lost :
  status (w (serve (UpdateTask no_sql) store1 (at_id "1" (Object completed)))) = StatusOK
  /\ written (w (serve (UpdateTask no_sql) store1 (at_id "1" (Object completed))))
     = [envelope_task StatusOK "Task updated successfully" learnGoCompleted]
  /\ calls (db (serve (UpdateTask no_sql) store1 (at_id "1" (Object completed))))
     = [CallFirst "1"]
  /\ rows (db (serve (UpdateTask no_sql) store1 (at_id "1" (Object completed))))
     = [learnGo]
  /\ written (w (serve (GetTask no_sql)
                   (db (serve (UpdateTask no_sql) store1 (at_id "1" (Object completed))))
                   (at_id "1" noBody)))
     = [envelope_task StatusOK "Task retrieview sucessfully" learnGo]
  /\ models.Status learnGo = "pending".
Proof. repeat split; reflexivity. Qed.

(** C2.  A list request on a store that reads without error gets a bare
    200: no Content-Type, no body, hence no envelope and no array of tasks,
    with one task in the table as with none. *)
Theorem GetAllTasks_success_sends_no_envelope :
  w (serve GetAllTasks store1 (no_id noBody)) = mkWriter [] true StatusOK [] []
  /\ w (serve GetAllTasks emptyStore (no_id noBody)) = mkWriter [] true StatusOK [] []
  /\ one_envelope (w (serve GetAllTasks store1 (no_id noBody))) = false.
Proof. repeat split; reflexivity. Qed.

(** C3.  A delete of id 7, which no row has: the status line is 404, but the
    handler does not stop there.  It calls [Delete] on the zero task and
    writes the envelope of a successful delete behind the 404 envelope.  The
    table keeps its row only because GORM refuses a delete without a
    condition. *)
Theorem DeleteTask_missing_id_still_deletes :
  lookup no_sql (rows store1) "7" = inr ErrRecordNotFound
  /\ status (w (serve (DeleteTask no_sql) store1 (at_id "7" noBody))) = StatusNotFound
  /\ calls (db (serve (DeleteTask no_sql) store1 (at_id "7" noBody)))
     = [CallFirst "7"; CallDelete models.zero]
  /\ written (w (serve (DeleteTask no_sql) store1 (at_id "7" noBody)))
     = [envelope StatusNotFound "Task not found";
        envelope StatusOK "Task deleted successfully"]
  /\ rows (db (serve (DeleteTask no_sql) store1 (at_id "7" noBody))) = [learnGo].
Proof. repeat split; reflexivity. Qed.

(** C7.  Two responses that are not one envelope mirroring the status line:
    the delete of a missing id has status 404 and a body of two JSON
    objects, the second with status 200; the successful list has no body at
    all.  The responses of [respondWithError] alone are such envelopes. *)
Theorem responses_that_are_no_envelope :
  one_envelope (w (serve (DeleteTask no_sql) emptyStore (at_id "1" noBody))) = false
  /\ status (w (serve (DeleteTask no_sql) emptyStore (at_id "1" noBody))) = 404
  /\ nth 1 (written (w (serve (DeleteTask no_sql) emptyStore (at_id "1" noBody)))) JNull
     = envelope 200 "Task deleted successfully"
  /\ one_envelope (w (serve GetAllTasks emptyStore (no_id noBody))) = false
  /\ written (w (serve GetAllTasks emptyStore (no_id noBody))) = []
  /\ one_envelope (w (serve (GetTask no_sql) emptyStore (at_id "1" noBody))) = true.
Proof. repeat split; reflexivity. Qed.

(** C5.  The update of task 1 with a body that has a status, an id and a
    creation time of its own: the response shows the record overwritten,
    title and description empty and status completed under the id and the
    creation time of the row.  But the lookup is the only call the handler
    makes on the database: the record in the table keeps its title, its
    description and its status, and a lookup after the update finds it as
    it was. *)
Theorem UpdateTask_overwrite_is_not_stored :
  written (w (serve (UpdateTask no_sql) store1 (at_id "1" (Object onlyStatus))))
  = [envelope_task StatusOK "Task updated successfully"
       (models.mkTask 1%N "" "" "completed" 1000 1000)]
  /\ calls (db (serve (UpdateTask no_sql) store1 (at_id "1" (Object onlyStatus))))
     = [CallFirst "1"]
  /\ rows (db (serve (UpdateTask no_sql) store1 (at_id "1" (Object onlyStatus))))
     = [learnGo]
  /\ lookup no_sql
       (rows (db (serve (UpdateTask no_sql) store1 (at_id "1" (Object onlyStatus))))) "1"
     = inl (models.mkTask 1%N "Learn Go" "Study" "pending" 1000 1000).
Proof. repeat split; reflexivity. Qed.

(** C10 as stated fails: on a response whose header is written, as the one
    [DeleteTask] answers on after its 404, [respondWithJSON] with status 200
    leaves the status line at 404. *)
Lemma respondWithJSON_second_status_is_lost : ~ writes_given_status.
Proof.
  intros H.
  specialize (H 200 (OfResponse (mkResponse 200 "Task deleted successfully" VNil))
                (snd (respondWithError 404 "Task not found"
                        (mkWorld emptyStore NewResponseWriter false)))
                eq_refl).
  discriminate H.
Qed.

(** C4 as stated fails: a create whose body carries id 42 and its own
    timestamps adds a record with that id and those timestamps, not with the
    next id of the sequence and the time of the insert. *)
Lemma CreateTask_takes_identity_from_body : ~ body_identity_ignored.
Proof.
  intros H.
  destruct (H emptyStore (no_id (Object withIdentity)) fromBody eq_refl) as [Hid _].
  - left. reflexivity.
  - intros [].
  - discriminate Hid.
Qed.

(** What the create of that body answers. *)
Example CreateTask_withIdentity :
  status (w (serve CreateTask emptyStore (no_id (Object withIdentity)))) = StatusCreated
  /\ written (w (serve CreateTask emptyStore (no_id (Object withIdentity))))
     = [envelope_task StatusCreated "Task created successfully" fromBody]
  /\ rows (db (serve CreateTask emptyStore (no_id (Object withIdentity)))) = [fromBody].
Proof. repeat split; reflexivity. Qed.

(* ================================================================== *)
(** ** The general theorems at the inputs of the scenario *)

(** C4, amended, on the first create of the scenario: the body has no id
    and no timestamps, the record gets id 1 and the time of the insert. *)
Lemma CreateTask_identity_fields_witness :
  hd None (faults emptyStore) = None
  /\ snd (Decode (Object pending) models.zero) = None
  /\ (seq emptyStore < maxInt64)%N
  /\ status (w (serve CreateTask emptyStore (no_id (Object pending)))) = StatusCreated
  /\ written (w (serve CreateTask emptyStore (no_id (Object pending))))
     = [envelope_task StatusCreated "Task created successfully" learnGo]
  /\ rows (db (serve CreateTask emptyStore (no_id (Object pending)))) = [learnGo]
  /\ seq (db (serve CreateTask emptyStore (no_id (Object pending)))) = 1%N.
Proof.
  split; [reflexivity|]. split; [reflexivity|]. split; [reflexivity|].
  apply (CreateTask_identity_fields emptyStore (no_id (Object pending))).
  - reflexivity.
  - reflexivity.
  - discriminate.
  - reflexivity.
  - reflexivity.
Defined.

(** The response of an update of task 1 with a body that has only a
    status, and an id and a creation time of its own: title and description
    come out empty, id and creation time are those of the row. *)
Example UpdateTask_response_fields_onlyStatus :
  lookup no_sql (rows store1) "1" = inl learnGo
  /\ snd (Decode (Object onlyStatus) models.zero) = None
  /\ status (w (serve (UpdateTask no_sql) store1 (at_id "1" (Object onlyStatus))))
     = StatusOK
  /\ written (w (serve (UpdateTask no_sql) store1 (at_id "1" (Object onlyStatus))))
     = [envelope_task StatusOK "Task updated successfully"
          (models.mkTask 1%N "" "" "completed" 1000 1000)].
Proof.
  split; [reflexivity|]. split; [reflexivity|].
  apply (UpdateTask_response_fields no_sql store1 (at_id "1" (Object onlyStatus))
           learnGo onlyStatus); reflexivity.
Qed.

(** C6 on a body that is no JSON. *)
Lemma CreateTask_bad_body_400_witness :
  is_err (snd (Decode Malformed models.zero)) = true
  /\ status (w (serve CreateTask store1 (no_id Malformed))) = StatusBadRequest
  /\ written (w (serve CreateTask store1 (no_id Malformed)))
     = [envelope StatusBadRequest "Invalid request payload"]
  /\ db (serve CreateTask store1 (no_id Malformed)) = store1
  /\ fst (fst (DB_Find [] (db (serve CreateTask store1 (no_id Malformed)))))
     = fst (fst (DB_Find [] store1)).
Proof.
  split; [reflexivity|].
  apply (CreateTask_bad_body_400 store1 (no_id Malformed)). reflexivity.
Defined.

(** C8 on id 7 with a body that is no JSON, and with one that is. *)
Lemma UpdateTask_missing_id_404_witness :
  lookup no_sql (rows store1) "7" = inr ErrRecordNotFound
  /\ (status (w (serve (UpdateTask no_sql) store1 (at_id "7" Malformed))) = StatusNotFound
      /\ written (w (serve (UpdateTask no_sql) store1 (at_id "7" Malformed)))
         = [envelope StatusNotFound "Tas not foun"]
      /\ bodyRead (serve (UpdateTask no_sql) store1 (at_id "7" Malformed)) = false
      /\ rows (db (serve (UpdateTask no_sql) store1 (at_id "7" Malformed))) = rows store1
      /\ seq (db (serve (UpdateTask no_sql) store1 (at_id "7" Malformed))) = seq store1).
Proof.
  split; [reflexivity|].
  apply (UpdateTask_missing_id_404 no_sql store1 (at_id "7" Malformed) ErrRecordNotFound).
  reflexivity.
Defined.

(** C10, amended, on a payload that does not marshal: no panic, status 500
    as asked, the Content-Type on the wire, and an empty body. *)
Lemma respondWithJSON_discards_marshal_error_witness :
  200 <= 500 <= 999
  /\ snd (json_Marshal (OfValue VFunc)) = Some ErrUnsupportedType
  /\ fst (respondWithJSON 500 (OfValue VFunc)
            (mkWorld emptyStore NewResponseWriter false)) = Some tt
  /\ status (w (snd (respondWithJSON 500 (OfValue VFunc)
                       (mkWorld emptyStore NewResponseWriter false)))) = 500
  /\ written (w (snd (respondWithJSON 500 (OfValue VFunc)
                        (mkWorld emptyStore NewResponseWriter false)))) = []
  /\ sent (w (snd (respondWithJSON 500 (OfValue VFunc)
                     (mkWorld emptyStore NewResponseWriter false))))
     = [("Content-Type", "application/json")].
Proof.
  split; [lia|]. split; [reflexivity|].
  destruct (respondWithJSON_discards_marshal_error 500 (OfValue VFunc)
              (mkWorld emptyStore NewResponseWriter false))
    as (Hp & _ & _ & Hc & Hs & Hw & _); [lia | discriminate | discriminate |].
  split; [exact Hp|]. split; [exact Hc|]. split; [exact Hw | exact Hs].
Defined.

(** C9 with the database file out of reach: the lookup fails with an I/O
    error and the answer is 404. *)
Example GetTask_io_error :
  status (w (serve (GetTask no_sql) (mkDB [learnGo] 1%N 2000 [Some ErrIO] [])
               (at_id "1" noBody))) = StatusNotFound.
Proof. reflexivity. Qed.

(** A create on a table whose sequence is exhausted, and a create whose
    body gives an id above the keys of SQLite: the insert fails and the
    answer is 500. *)
Example CreateTask_no_id_left :
  status (w (serve CreateTask (mkDB [] maxInt64 2000 [] []) (no_id (Object pending))))
    = StatusInternalServerError
  /\ status (w (serve CreateTask emptyStore
                  (no_id (Object (mkFields (Some 9223372036854775808%N) None None None
                                           None None)))))
    = StatusInternalServerError
  /\ rows (db (serve CreateTask emptyStore
                 (no_id (Object (mkFields (Some 9223372036854775808%N) None None None
                                          None None))))) = [].
Proof. repeat split; reflexivity. Qed.

(** [respondWithJSON] with a code [WriteHeader] does not take: the panic
    comes after the Content-Type is set in the map and before anything is
    on the wire.  With an informational code the final header is still to
    be written, and [Write] writes it with 200 and drops nothing. *)
Example respondWithJSON_odd_codes :
  respondWithJSON 0 (OfValue VNil) (mkWorld emptyStore NewResponseWriter false)
    = (None, mkWorld emptyStore
               (mkWriter [("Content-Type", "application/json")] false 0 [] []) false)
  /\ status (w (snd (respondWithJSON 100 (OfValue VNil)
                       (mkWorld emptyStore NewResponseWriter false)))) = StatusOK
  /\ informational (w (snd (respondWithJSON 100 (OfValue VNil)
                              (mkWorld emptyStore NewResponseWriter false))))
     = [(100, [("Content-Type", "application/json")])]
  /\ written (w (snd (respondWithJSON 204 (OfValue VNil)
                        (mkWorld emptyStore NewResponseWriter false)))) = [].
Proof. repeat split; reflexivity. Qed.


(* ================================================================== *)
(** ** Clean paths *)

Lemma segments_no_slash (s : string) : no_slash s = true -> segments s = [s].
Proof.
  induction s as [|c s IH]; cbn; [reflexivity|].
  intros H. apply andb_true_iff in H. destruct H as [Hc Hs].
  apply negb_true_iff in Hc. rewrite Hc, (IH Hs). reflexivity.
Qed.

Lemma no_slash_end (s : string) : no_slash s = true -> ends_with_slash s = false.
Proof.
  induction s as [|c s IH]; cbn; [reflexivity|].
  intros H. apply andb_true_iff in H. destruct H as [Hc Hs].
  apply negb_true_iff in Hc. destruct s; [exact Hc | exact (IH Hs)].
Qed.

Lemma ends_with_slash_append (p s : string) :
  s <> "" -> ends_with_slash (String.append p s) = ends_with_slash s.
Proof.
  intros Hs. induction p as [|c p IH]; [reflexivity|].
  cbn [String.append ends_with_slash].
  destruct (String.append p s) eqn:E; [|exact IH].
  destruct p; cbn in E; [congruence | discriminate].
Qed.

(** The paths of the routes with an id are clean, the ids [.] and [..]
    apart. *)
Lemma cleanPath_id_route (id : string) :
  id <> "" -> no_slash id = true -> id <> "." -> id <> ".." ->
  cleanPath (String.append "/api/tasks/" id) = String.append "/api/tasks/" id.
Proof.
  intros Hne Hns Hdot Hdots.
  assert (He : ends_with_slash (String.append "/api/tasks/" id) = false).
  { rewrite ends_with_slash_append by exact Hne. now apply no_slash_end. }
  apply String.eqb_neq in Hne, Hdot, Hdots.
  unfold cleanPath. cbn [String.append Ascii.eqb Bool.eqb] in *. rewrite He.
  cbn [andb]. unfold path_Clean. cbn [segments Ascii.eqb Bool.eqb].
  rewrite (segments_no_slash id Hns).
  cbn [clean_segments String.eqb Ascii.eqb Bool.eqb orb].
  rewrite Hne, Hdot, Hdots. cbn. reflexivity.
Qed.

(** The ids [.] and [..] make a path that is not clean: the router answers
    with a redirect and no handler runs. *)
Example Router_dispatch_dot :
  Router_dispatch "GET" "/api/tasks/." = Redirect "/api/tasks"
  /\ Router_dispatch "DELETE" "/api/tasks/.." = Redirect "/api"
  /\ ServeHTTP Fixtures.no_sql "GET" "/api/tasks/." Fixtures.noBody Fixtures.store1 = None.
Proof. repeat split; reflexivity. Qed.

(* ================================================================== *)
(** ** Lookups and the shape of the table *)

Lemma first_by_id_Some (p : models.Task -> bool) (l : list models.Task) (t : models.Task) :
  first_by_id p l = Some t -> p t = true /\ In t l.
Proof.
  revert t. induction l as [|a l IH]; intros t H; cbn in H; [discriminate|].
  destruct (first_by_id p l) as [u|].
  - destruct (IH u eq_refl) as [Hp Hin].
    destruct (p a) eqn:Ea; cbn in H.
    + destruct (N.leb (models.ID a) (models.ID u)); injection H as <-.
      * split; [exact Ea | now left].
      * split; [exact Hp | now right].
    + injection H as <-. split; [exact Hp | now right].
  - destruct (p a) eqn:Ea; [|discriminate].
    injection H as <-. split; [exact Ea | now left].
Qed.

Lemma first_by_id_finds (p : models.Task -> bool) (l : list models.Task) (t : models.Task) :
  In t l -> p t = true -> exists u, first_by_id p l = Some u.
Proof.
  induction l as [|a l IH]; intros Hin Hp; [contradiction|]. cbn.
  destruct (first_by_id p l) as [u|] eqn:E.
  - destruct (p a && N.leb (models.ID a) (models.ID u)); eauto.
  - destruct Hin as [->|Hin].
    + rewrite Hp. eauto.
    + destruct (IH Hin Hp) as [u Hu]. discriminate.
Qed.

Lemma NoDup_map_eq {A B : Type} (f : A -> B) (l : list A) (a b : A) :
  NoDup (map f l) -> In a l -> In b l -> f a = f b -> a = b.
Proof.
  induction l as [|x l IH]; intros Hnd Ha Hb Hf; [contradiction|].
  cbn in Hnd. inversion Hnd as [|y m Hx Hl]; subst.
  destruct Ha as [->|Ha], Hb as [->|Hb].
  - reflexivity.
  - exfalso. apply Hx. rewrite Hf. now apply in_map.
  - exfalso. apply Hx. rewrite <- Hf. now apply in_map.
  - now apply IH.
Qed.

Section Lookups.

Variable sql_where : string -> option (models.Task -> bool).

Lemma lookup_found_In (l : list models.Task) (cond : string) (t : models.Task) :
  lookup sql_where l cond = inl t -> In t l.
Proof.
  unfold lookup. destruct (condition sql_where cond) as [p|]; [|discriminate].
  destruct (first_by_id p l) as [u|] eqn:E; [|discriminate].
  intros H. injection H as <-. now apply first_by_id_Some in E.
Qed.

Lemma lookup_numeric (l : list models.Task) (cond : string) (n : Z) :
  cond <> "" -> Atoi cond = Some n ->
  lookup sql_where l cond =
  match first_by_id (fun t => Z.eqb (Z.of_N (models.ID t)) n) l with
  | Some t => inl t
  | None => inr ErrRecordNotFound
  end.
Proof.
  intros Hne Ha. unfold lookup, condition.
  destruct (String.eqb_spec cond "") as [->|_]; [congruence|].
  now rewrite Ha.
Qed.

Lemma lookup_numeric_id (l : list models.Task) (cond : string) (n : Z) (t : models.Task) :
  cond <> "" -> Atoi cond = Some n ->
  lookup sql_where l cond = inl t -> Z.of_N (models.ID t) = n.
Proof.
  intros Hne Ha. rewrite (lookup_numeric l cond n Hne Ha).
  destruct (first_by_id _ l) as [u|] eqn:E; [|discriminate].
  intros H. injection H as <-. apply first_by_id_Some in E.
  now apply Z.eqb_eq.
Qed.

Lemma lookup_numeric_found (l : list models.Task) (cond : string) (t : models.Task) :
  cond <> "" -> Atoi cond = Some (Z.of_N (models.ID t)) ->
  NoDup (map models.ID l) -> In t l ->
  lookup sql_where l cond = inl t.
Proof.
  intros Hne Ha Hnd Hin. rewrite (lookup_numeric l cond _ Hne Ha).
  destruct (first_by_id_finds (fun u => Z.eqb (Z.of_N (models.ID u)) (Z.of_N (models.ID t)))
              l t Hin (Z.eqb_refl _)) as [u Hu].
  rewrite Hu. apply first_by_id_Some in Hu. destruct Hu as [Hp Hu].
  apply Z.eqb_eq, N2Z.inj in Hp.
  now rewrite (NoDup_map_eq models.ID l u t Hnd Hu Hin Hp).
Qed.

End Lookups.


Lemma DB_Create_rows (t : models.Task) (d : DB) :
  snd (fst (DB_Create t d)) = None ->
  rows (snd (DB_Create t d)) = rows d ++ [fst (fst (DB_Create t d))].
Proof.
  unfold DB_Create, enter. cbn [fst snd rows seq now faults calls].
  destruct (hd None (faults d)); [discriminate|].
  destruct (N.eqb (models.ID t) 0).
  - destruct (N.leb maxInt64 (seq d)); [discriminate | reflexivity].
  - destruct (N.ltb maxInt64 (models.ID t)); [discriminate|].
    destruct (existsb _ _); [discriminate | reflexivity].
Qed.

Lemma DB_Create_failed (t : models.Task) (d : DB) (e : Error) :
  snd (fst (DB_Create t d)) = Some e ->
  rows (snd (DB_Create t d)) = rows d /\ seq (snd (DB_Create t d)) = seq d.
Proof.
  unfold DB_Create, enter. cbn [fst snd rows seq now faults calls].
  destruct (hd None (faults d)); [split; reflexivity|].
  destruct (N.eqb (models.ID t) 0).
  - destruct (N.leb maxInt64 (seq d)); [split; reflexivity | discriminate].
  - destruct (N.ltb maxInt64 (models.ID t)); [split; reflexivity|].
    destruct (existsb _ _); [split; reflexivity | discriminate].
Qed.

Lemma existsb_has_id_false (n : N) (l : list models.Task) :
  existsb (has_id n) l = false -> ~ In n (map models.ID l).
Proof.
  induction l as [|a l IH]; cbn; [tauto|].
  intros H [Ha|Hin]; apply orb_false_iff in H; destruct H as [H1 H2].
  - unfold has_id in H1. apply N.eqb_neq in H1. congruence.
  - now apply IH.
Qed.

Lemma table_ok_fresh (d : DB) : table_ok d -> ~ In (N.succ (seq d)) (map models.ID (rows d)).
Proof.
  intros [_ Hf] Hin. apply in_map_iff in Hin. destruct Hin as (t & Ht & Hin).
  rewrite Forall_forall in Hf. specialize (Hf t Hin). lia.
Qed.

Lemma table_ok_snoc (d : DB) (t : models.Task) (s : N) (c : models.Time)
    (f : list (option Error)) (k : list Call) :
  table_ok d -> ~ In (models.ID t) (map models.ID (rows d)) ->
  (0 < models.ID t <= s)%N -> (seq d <= s)%N ->
  table_ok (mkDB (rows d ++ [t]) s c f k).
Proof.
  intros [Hnd Hf] Hnew Hid Hs. split; cbn [rows seq].
  - rewrite map_app. cbn. apply NoDup_app; [exact Hnd | repeat constructor; tauto |].
    intros x Hx [<-|[]]. now apply Hnew.
  - apply Forall_app. split.
    + eapply Forall_impl; [|exact Hf]. cbn. intros a Ha. lia.
    + repeat constructor; lia.
Qed.

Lemma DB_Create_table_ok (t : models.Task) (d : DB) :
  table_ok d -> table_ok (snd (DB_Create t d)).
Proof.
  intros H. unfold DB_Create, enter. cbn [fst snd rows seq now faults calls].
  destruct (hd None (faults d)); [exact H|].
  destruct (N.eqb (models.ID t) 0) eqn:E; cbn [snd].
  - destruct (N.leb maxInt64 (seq d)); cbn [snd]; [exact H|].
    apply (table_ok_snoc d); cbn [models.ID]; try lia; [exact H | now apply table_ok_fresh].
  - destruct (N.ltb maxInt64 (models.ID t)); cbn [snd]; [exact H|].
    destruct (existsb _ _) eqn:Ex; cbn [snd]; [exact H|].
    apply N.eqb_neq in E.
    apply (table_ok_snoc d); cbn [models.ID]; try lia;
      [exact H | now apply existsb_has_id_false].
Qed.




Lemma DB_Delete_seq (t : models.Task) (d : DB) : seq (snd (DB_Delete t d)) = seq d.
Proof.
  unfold DB_Delete, enter. cbn [fst snd rows seq now faults calls].
  destruct (hd None (faults d)); [reflexivity|].
  destruct (N.eqb (models.ID t) 0); reflexivity.
Qed.

Lemma DB_Create_succeeds (t : models.Task) (d : DB) :
  hd None (faults d) = None ->
  existsb (has_id (models.ID t)) (rows d) = false ->
  (models.ID t <= maxInt64)%N ->
  (seq d < maxInt64)%N ->
  snd (fst (DB_Create t d)) = None /\ faults (snd (DB_Create t d)) = tl (faults d).
Proof.
  intros Hf Hx Hid Hseq. apply N.leb_gt in Hseq. apply N.ltb_ge in Hid.
  unfold DB_Create, enter. cbn [fst snd rows seq now faults calls].
  rewrite Hf, Hx, Hid, Hseq. destruct (N.eqb (models.ID t) 0); split; reflexivity.
Qed.

(** A non-zero id comes back from [Create] as it went in, whether the insert
    succeeds or not. *)
Lemma DB_Create_keeps_id (t : models.Task) (d : DB) :
  models.ID t <> 0%N -> models.ID (fst (fst (DB_Create t d))) = models.ID t.
Proof.
  intros Hid. apply N.eqb_neq in Hid.
  unfold DB_Create, enter. cbn [fst snd rows seq now faults calls].
  destruct (hd None (faults d)); [reflexivity|]. rewrite Hid.
  destruct (N.ltb maxInt64 (models.ID t)); [reflexivity|].
  destruct (existsb _ _); reflexivity.
Qed.

(** What [strconv.Atoi] returns is an [int]. *)
Lemma Atoi_range (s : string) (n : Z) : Atoi s = Some n -> n <= 2 ^ 63 - 1.
Proof.
  unfold Atoi.
  match goal with |- context [let '(_, _) := ?m in _] => destruct m as [neg rest] end.
  destruct rest as [|c rest]; [discriminate|].
  destruct (digits (String c rest) 0) as [v|]; [|discriminate].
  destruct ((- 2 ^ 63 <=? (if neg then - v else v))
            && ((if neg then - v else v) <=? 2 ^ 63 - 1)) eqn:E; [|discriminate].
  intros H. injection H as <-.
  apply andb_true_iff in E. destruct E as [_ E]. now apply Z.leb_le.
Qed.

Lemma DB_Create_keeps_text (t : models.Task) (d : DB) :
  models.Title (fst (fst (DB_Create t d))) = models.Title t
  /\ models.Description (fst (fst (DB_Create t d))) = models.Description t
  /\ models.Status (fst (fst (DB_Create t d))) = models.Status t.
Proof.
  unfold DB_Create, enter. cbn [fst snd rows seq now faults calls].
  destruct (hd None (faults d)); [repeat split|].
  destruct (N.eqb (models.ID t) 0).
  - destruct (N.leb maxInt64 (seq d)); repeat split.
  - destruct (N.ltb maxInt64 (models.ID t)); [repeat split|].
    destruct (existsb _ _); repeat split.
Qed.

Lemma DB_Delete_run (t : models.Task) (d : DB) :
  hd None (faults d) = None -> models.ID t <> 0%N ->
  rows (snd (DB_Delete t d)) = filter (fun u => negb (has_id (models.ID t) u)) (rows d).
Proof.
  intros Hf Hid. unfold DB_Delete, enter. cbn [fst snd rows seq now faults calls].
  rewrite Hf. apply N.eqb_neq in Hid. rewrite Hid. reflexivity.
Qed.

Lemma filter_out_id_length (l : list models.Task) (t : models.Task) :
  NoDup (map models.ID l) -> In t l ->
  (length (filter (fun u => negb (has_id (models.ID t) u)) l) + 1 = length l)%nat.
Proof.
  induction l as [|a l IH]; intros Hnd Hin; [contradiction|].
  cbn in Hnd. inversion Hnd as [|x m Hx Hl]; subst. cbn [filter length].
  destruct Hin as [->|Hin].
  - unfold has_id at 1. rewrite N.eqb_refl. cbn [negb].
    assert (E : filter (fun u => negb (has_id (models.ID t) u)) l = l).
    { apply forallb_filter_id. apply forallb_forall. intros u Hu.
      unfold has_id. apply negb_true_iff, N.eqb_neq. intros Heq.
      apply Hx. rewrite <- Heq. now apply in_map. }
    rewrite E. lia.
  - assert (Hne : models.ID a <> models.ID t).
    { intros Heq. apply Hx. rewrite Heq. now apply in_map. }
    unfold has_id at 1. apply N.eqb_neq in Hne. rewrite Hne. cbn [negb length].
    specialize (IH Hl Hin). lia.
Qed.

Lemma strip_prefix_append (p s : string) : strip_prefix p (String.append p s) = Some s.
Proof.
  induction p as [|a p IH]; cbn; [reflexivity|]. now rewrite Ascii.eqb_refl.
Qed.

Lemma strip_prefix_Some (p s v : string) :
  strip_prefix p s = Some v -> s = String.append p v.
Proof.
  revert s. induction p as [|a p IH]; intros s H; cbn in *.
  - now injection H as ->.
  - destruct s as [|b s]; [discriminate|].
    destruct (Ascii.eqb_spec a b) as [->|_]; [|discriminate].
    now rewrite (IH s H).
Qed.

(* ================================================================== *)
(** ** What every request gets *)

Section EveryRequest.

Variable sql_where : string -> option (models.Task -> bool).

(** X1.  The status codes each handler can answer, for every store, every
    request and every behaviour of the environment: list 200 or 500, create
    201, 400 or 500, update 200, 400 or 404 (never 500: it makes no write
    that could fail), delete 200 or 404. *)
Theorem handlers_status_codes (d : DB) (r : Request) :
  In (status (w (serve GetAllTasks d r))) [StatusOK; StatusInternalServerError]
  /\ In (status (w (serve CreateTask d r)))
        [StatusCreated; StatusBadRequest; StatusInternalServerError]
  /\ In (status (w (serve (UpdateTask sql_where) d r)))
        [StatusOK; StatusBadRequest; StatusNotFound]
  /\ In (status (w (serve (DeleteTask sql_where) d r))) [StatusOK; StatusNotFound].
Proof.
  repeat split.
  - rewrite GetAllTasks_run. cbn [w].
    destruct (is_err (hd None (faults d))); cbn; tauto.
  - rewrite CreateTask_run.
    destruct (Decode (Body r) models.zero) as [t [e|]]; [cbn; tauto|].
    cbn [w]. destruct (snd (fst (DB_Create t d))); cbn; tauto.
  - rewrite UpdateTask_run.
    destruct (fst (DB_First sql_where models.zero (index (Vars r) "id") d)) as [t [e|]];
      [cbn; tauto|].
    cbn [w]. destruct (Decode (Body r) models.zero) as [u [e|]]; cbn; tauto.
  - rewrite DeleteTask_run.
    destruct (fst (DB_First sql_where models.zero (index (Vars r) "id") d)) as [t [e|]];
      cbn; tauto.
Qed.

(** X2.  Get, create and update answer one envelope that mirrors the status
    line, whatever the request and the store: the body is one JSON object
    whose [status] is the HTTP status, with a [message] and at most a
    [data]. *)
Theorem responses_are_one_envelope (d : DB) (r : Request) :
  one_envelope (w (serve (GetTask sql_where) d r)) = true
  /\ one_envelope (w (serve CreateTask d r)) = true
  /\ one_envelope (w (serve (UpdateTask sql_where) d r)) = true.
Proof.
  repeat split.
  - rewrite GetTask_run. cbn [w].
    destruct (fst (DB_First sql_where models.zero (index (Vars r) "id") d)) as [t [e|]];
      reflexivity.
  - rewrite CreateTask_run.
    destruct (Decode (Body r) models.zero) as [t [e|]]; [reflexivity|].
    cbn [w]. destruct (snd (fst (DB_Create t d))); reflexivity.
  - rewrite UpdateTask_run.
    destruct (fst (DB_First sql_where models.zero (index (Vars r) "id") d)) as [t [e|]];
      [reflexivity|].
    cbn [w]. destruct (Decode (Body r) models.zero) as [u [e|]]; reflexivity.
Qed.

(** X3.  Get, create, update and delete declare their body as JSON on every
    path: the Content-Type that goes on the wire is application/json. *)
Theorem responses_declare_json (d : DB) (r : Request) :
  Header_Get (sent (w (serve (GetTask sql_where) d r))) "Content-Type"
    = Some "application/json"
  /\ Header_Get (sent (w (serve CreateTask d r))) "Content-Type"
    = Some "application/json"
  /\ Header_Get (sent (w (serve (UpdateTask sql_where) d r))) "Content-Type"
    = Some "application/json"
  /\ Header_Get (sent (w (serve (DeleteTask sql_where) d r))) "Content-Type"
    = Some "application/json".
Proof.
  repeat split.
  - rewrite GetTask_run. cbn [w].
    destruct (fst (DB_First sql_where models.zero (index (Vars r) "id") d)) as [t [e|]];
      reflexivity.
  - rewrite CreateTask_run.
    destruct (Decode (Body r) models.zero) as [t [e|]]; [reflexivity|].
    cbn [w]. destruct (snd (fst (DB_Create t d))); reflexivity.
  - rewrite UpdateTask_run.
    destruct (fst (DB_First sql_where models.zero (index (Vars r) "id") d)) as [t [e|]];
      [reflexivity|].
    cbn [w]. destruct (Decode (Body r) models.zero) as [u [e|]]; reflexivity.
  - rewrite DeleteTask_run.
    destruct (fst (DB_First sql_where models.zero (index (Vars r) "id") d)) as [t [e|]];
      reflexivity.
Qed.




End EveryRequest.

(* ================================================================== *)
(** ** The paths of the handlers the claims leave out *)

Section Paths.

Variable sql_where : string -> option (models.Task -> bool).

(** X7.  A get whose lookup finds a row answers 200 with that row as the
    data of the envelope. *)
Theorem GetTask_returns_found_task (d : DB) (r : Request) (t : models.Task) :
  hd None (faults d) = None ->
  lookup sql_where (rows d) (index (Vars r) "id") = inl t ->
  w (serve (GetTask sql_where) d r)
  = answer StatusOK [envelope_task StatusOK "Task retrieview sucessfully" t].
Proof.
  intros Hf Hl. rewrite GetTask_run, DB_First_run, Hf, Hl. reflexivity.
Qed.

(** X8.  A get, an update or a delete whose path id is a numeral of an id
    that no row has answers with status 404, whatever else happens. *)
Theorem numeric_id_without_row_404 (d : DB) (r : Request) (n : Z) :
  index (Vars r) "id" <> "" ->
  Atoi (index (Vars r) "id") = Some n ->
  (forall t, In t (rows d) -> Z.of_N (models.ID t) <> n) ->
  w (serve (GetTask sql_where) d r)
    = answer StatusNotFound [envelope StatusNotFound "Task not found"]
  /\ w (serve (UpdateTask sql_where) d r)
    = answer StatusNotFound [envelope StatusNotFound "Tas not foun"]
  /\ status (w (serve (DeleteTask sql_where) d r)) = StatusNotFound.
Proof.
  intros Hne Ha Hno.
  assert (Hl := lookup_absent sql_where (rows d) _ n Hne Ha Hno).
  destruct (DB_First_fails sql_where models.zero _ d _ Hl) as [e He].
  rewrite GetTask_run, UpdateTask_run, DeleteTask_run, He. repeat split.
Qed.

(** X9.  Create, then get by the id of the created record, on a table
    whose sequence has an id left: the get answers 200 with the very record
    the create answered, whose title, description and status are those of
    the create's body. *)
Theorem CreateTask_then_GetTask (d : DB) (r r' : Request) :
  table_ok d ->
  (seq d < maxInt64)%N ->
  hd None (faults d) = None ->
  hd None (tl (faults d)) = None ->
  snd (Decode (Body r) models.zero) = None ->
  existsb (has_id (models.ID (fst (Decode (Body r) models.zero)))) (rows d) = false ->
  index (Vars r') "id" <> "" ->
  Atoi (index (Vars r') "id")
    = Some (Z.of_N (models.ID (fst (fst (DB_Create (fst (Decode (Body r) models.zero)) d))))) ->
  exists created,
    w (serve CreateTask d r)
      = answer StatusCreated
          [envelope_task StatusCreated "Task created successfully" created]
    /\ w (serve (GetTask sql_where) (db (serve CreateTask d r)) r')
      = answer StatusOK
          [envelope_task StatusOK "Task retrieview sucessfully" created]
    /\ models.Title created = models.Title (fst (Decode (Body r) models.zero))
    /\ models.Description created = models.Description (fst (Decode (Body r) models.zero))
    /\ models.Status created = models.Status (fst (Decode (Body r) models.zero)).
Proof.
  intros Hok Hseq Hf1 Hf2 Hd Hnew Hne Ha.
  rewrite CreateTask_run.
  destruct (Decode (Body r) models.zero) as [t x]. cbn [fst snd] in *. subst x.
  assert (Hid : (models.ID t <= maxInt64)%N).
  { destruct (N.eq_dec (models.ID t) 0) as [E|E]; [rewrite E; discriminate|].
    apply Atoi_range in Ha. rewrite (DB_Create_keeps_id t d E) in Ha.
    unfold maxInt64. change (2 ^ 63 - 1) with 9223372036854775807 in Ha. lia. }
  destruct (DB_Create_succeeds t d Hf1 Hnew Hid Hseq) as [Hs Hfa].
  assert (Hrows := DB_Create_rows t d Hs).
  assert (Hok' := DB_Create_table_ok t d Hok).
  exists (fst (fst (DB_Create t d))). rewrite Hs. cbn [w db].
  split; [reflexivity|]. split; [|apply DB_Create_keeps_text].
  rewrite GetTask_run, DB_First_run, Hfa, Hf2.
  rewrite (lookup_numeric_found sql_where _ _ (fst (fst (DB_Create t d))) Hne Ha).
  - reflexivity.
  - exact (proj1 Hok').
  - rewrite Hrows. apply in_or_app. right. now left.
Qed.

(** X10.  A create whose body parses and whose insert fails in the
    environment answers the 500 envelope and adds no row. *)
Theorem CreateTask_storage_error_500 (d : DB) (r : Request) (e : Error) :
  snd (Decode (Body r) models.zero) = None ->
  hd None (faults d) = Some e ->
  w (serve CreateTask d r)
    = answer StatusInternalServerError
        [envelope StatusInternalServerError "Error creating task"]
  /\ rows (db (serve CreateTask d r)) = rows d
  /\ seq (db (serve CreateTask d r)) = seq d.
Proof.
  intros Hd Hf. rewrite CreateTask_run.
  destruct (Decode (Body r) models.zero) as [t x]. cbn [snd] in Hd. subst x.
  unfold DB_Create, enter. cbn [fst snd rows seq now faults calls]. rewrite Hf.
  repeat split.
Qed.

(** X11.  A create whose body gives an id that a row already has answers
    the 500 envelope and leaves the table as it was. *)
Theorem CreateTask_duplicate_id_500 (d : DB) (r : Request) :
  snd (Decode (Body r) models.zero) = None ->
  models.ID (fst (Decode (Body r) models.zero)) <> 0%N ->
  existsb (has_id (models.ID (fst (Decode (Body r) models.zero)))) (rows d) = true ->
  w (serve CreateTask d r)
    = answer StatusInternalServerError
        [envelope StatusInternalServerError "Error creating task"]
  /\ rows (db (serve CreateTask d r)) = rows d
  /\ seq (db (serve CreateTask d r)) = seq d.
Proof.
  intros Hd Hid Hx. rewrite CreateTask_run.
  destruct (Decode (Body r) models.zero) as [t x]. cbn [fst snd] in *. subst x.
  apply N.eqb_neq in Hid.
  unfold DB_Create, enter. cbn [fst snd rows seq now faults calls].
  destruct (hd None (faults d)); [repeat split|].
  rewrite Hid. destruct (N.ltb maxInt64 (models.ID t)); [repeat split|].
  rewrite Hx. repeat split.
Qed.

(** X12.  An update of an existing task whose body does not parse answers
    the 400 envelope; the body was read and the table is unchanged. *)
Theorem UpdateTask_bad_body_400 (d : DB) (r : Request) (t : models.Task) :
  hd None (faults d) = None ->
  lookup sql_where (rows d) (index (Vars r) "id") = inl t ->
  is_err (snd (Decode (Body r) models.zero)) = true ->
  w (serve (UpdateTask sql_where) d r)
    = answer StatusBadRequest [envelope StatusBadRequest "Invalid request payload"]
  /\ bodyRead (serve (UpdateTask sql_where) d r) = true
  /\ rows (db (serve (UpdateTask sql_where) d r)) = rows d.
Proof.
  intros Hf Hl Hd. rewrite UpdateTask_run, DB_First_run, Hf, Hl. cbn [fst].
  destruct (Decode (Body r) models.zero) as [u [e|]]; [|discriminate].
  repeat split.
Qed.

(** X13.  A delete whose lookup finds a row answers the 200 envelope without
    data, and the table loses the rows of that id and no other. *)
Theorem DeleteTask_removes_row (d : DB) (r : Request) (t : models.Task) :
  hd None (faults d) = None ->
  hd None (tl (faults d)) = None ->
  lookup sql_where (rows d) (index (Vars r) "id") = inl t ->
  models.ID t <> 0%N ->
  w (serve (DeleteTask sql_where) d r)
    = answer StatusOK [envelope StatusOK "Task deleted successfully"]
  /\ rows (db (serve (DeleteTask sql_where) d r))
    = filter (fun u => negb (has_id (models.ID t) u)) (rows d)
  /\ seq (db (serve (DeleteTask sql_where) d r)) = seq d.
Proof.
  intros Hf1 Hf2 Hl Hid. rewrite DeleteTask_run, DB_First_run, Hf1, Hl. cbn [fst w db].
  split; [reflexivity|]. split; [|now rewrite DB_Delete_seq].
  exact (DB_Delete_run t (after_call (CallFirst (index (Vars r) "id")) d) Hf2 Hid).
Qed.

(** X14.  On a well-formed table a successful delete removes exactly the
    row it looked up: that row is gone, every other row stays, no row
    appears, and the table is one row shorter. *)
Theorem DeleteTask_removes_exactly_one (d : DB) (r : Request) (t : models.Task) :
  table_ok d ->
  hd None (faults d) = None ->
  hd None (tl (faults d)) = None ->
  lookup sql_where (rows d) (index (Vars r) "id") = inl t ->
  ~ In t (rows (db (serve (DeleteTask sql_where) d r)))
  /\ (forall u, In u (rows d) -> u <> t ->
        In u (rows (db (serve (DeleteTask sql_where) d r))))
  /\ (forall u, In u (rows (db (serve (DeleteTask sql_where) d r))) -> In u (rows d))
  /\ (length (rows (db (serve (DeleteTask sql_where) d r))) + 1 = length (rows d))%nat.
Proof.
  intros Hok Hf1 Hf2 Hl.
  assert (Hin := lookup_found_In sql_where _ _ _ Hl).
  assert (Hid : models.ID t <> 0%N).
  { destruct Hok as [_ Hall]. rewrite Forall_forall in Hall. specialize (Hall t Hin). lia. }
  rewrite DeleteTask_run, DB_First_run, Hf1, Hl. cbn [fst w db].
  rewrite (DB_Delete_run t (after_call (CallFirst (index (Vars r) "id")) d) Hf2 Hid).
  cbn [after_call enter snd rows].
  repeat split.
  - intros H. apply filter_In in H. destruct H as [_ H].
    unfold has_id in H. now rewrite N.eqb_refl in H.
  - intros u Hu Hne. apply filter_In. split; [exact Hu|].
    unfold has_id. apply negb_true_iff, N.eqb_neq. intros Heq.
    apply Hne. exact (NoDup_map_eq models.ID _ u t (proj1 Hok) Hu Hin Heq).
  - intros u Hu. apply filter_In in Hu. tauto.
  - apply filter_out_id_length; [exact (proj1 Hok) | exact Hin].
Qed.

(** X15.  Delete a task by a numeric path id, then get by the same id: the
    get answers the 404 envelope, whatever the environment does to it. *)
Theorem DeleteTask_then_GetTask_404 (d : DB) (r r' : Request) (n : Z) (t : models.Task) :
  table_ok d ->
  hd None (faults d) = None ->
  hd None (tl (faults d)) = None ->
  index (Vars r) "id" <> "" ->
  Atoi (index (Vars r) "id") = Some n ->
  lookup sql_where (rows d) (index (Vars r) "id") = inl t ->
  index (Vars r') "id" = index (Vars r) "id" ->
  w (serve (DeleteTask sql_where) d r)
    = answer StatusOK [envelope StatusOK "Task deleted successfully"]
  /\ w (serve (GetTask sql_where) (db (serve (DeleteTask sql_where) d r)) r')
    = answer StatusNotFound [envelope StatusNotFound "Task not found"].
Proof.
  intros Hok Hf1 Hf2 Hne Ha Hl Hsame.
  assert (Hin := lookup_found_In sql_where _ _ _ Hl).
  assert (Hn := lookup_numeric_id sql_where _ _ _ _ Hne Ha Hl).
  assert (Hid : models.ID t <> 0%N).
  { destruct Hok as [_ Hall]. rewrite Forall_forall in Hall. specialize (Hall t Hin). lia. }
  rewrite GetTask_run, DeleteTask_run, DB_First_run, Hf1, Hl. cbn [fst w db].
  split; [reflexivity|].
  rewrite Hsame.
  assert (Hgone : lookup sql_where
                    (rows (snd (DB_Delete t (after_call (CallFirst (index (Vars r) "id")) d))))
                    (index (Vars r) "id") = inr ErrRecordNotFound).
  { apply (lookup_absent sql_where _ _ n Hne Ha).
    rewrite (DB_Delete_run t (after_call (CallFirst (index (Vars r) "id")) d) Hf2 Hid).
    intros u Hu.
    apply filter_In in Hu. destruct Hu as [_ Hu].
    unfold has_id in Hu. apply negb_true_iff, N.eqb_neq in Hu.
    rewrite <- Hn. intros Heq. apply Hu. now apply N2Z.inj. }
  destruct (DB_First_fails sql_where models.zero _ _ _ Hgone) as [e He].
  now rewrite He.
Qed.

(** X16.  The handler does not look at the outcome of [Delete]: when the
    delete itself fails, the answer is still the 200 envelope of a
    successful delete, and the row is still in the table. *)
Theorem DeleteTask_ignores_delete_error (d : DB) (r : Request) (t : models.Task) (e : Error) :
  hd None (faults d) = None ->
  hd None (tl (faults d)) = Some e ->
  lookup sql_where (rows d) (index (Vars r) "id") = inl t ->
  w (serve (DeleteTask sql_where) d r)
    = answer StatusOK [envelope StatusOK "Task deleted successfully"]
  /\ rows (db (serve (DeleteTask sql_where) d r)) = rows d.
Proof.
  intros Hf1 Hf2 Hl. rewrite DeleteTask_run, DB_First_run, Hf1, Hl. cbn [fst w db].
  split; [reflexivity|].
  unfold DB_Delete, after_call, enter. cbn [fst snd rows seq now faults calls].
  now rewrite Hf2.
Qed.

End Paths.

(* ================================================================== *)
(** ** The router of main.go *)

Lemma match_id_route (path : string) (vars : list (string * string)) :
  match_path (WithVar "/api/tasks/" "id") path = Some vars -> id_route path vars.
Proof.
  unfold match_path. destruct (strip_prefix "/api/tasks/" path) as [v|] eqn:E; [|discriminate].
  destruct (negb (String.eqb v "") && no_slash v) eqn:Ev; [|discriminate].
  intros H. injection H as <-. apply andb_true_iff in Ev. destruct Ev as [Hne Hns].
  exists v. repeat split.
  - now apply strip_prefix_Some.
  - intros ->. discriminate.
  - exact Hns.
Qed.

Lemma match_id_route_tasks : match_path (WithVar "/api/tasks/" "id") "/api/tasks" = None.
Proof. reflexivity. Qed.

Lemma match_method_one (m method : string) :
  match_method [m] method = String.eqb method m.
Proof. cbn. apply orb_false_r. Qed.

(** X17.  The router of [main] reaches the handlers: GET and POST on
    /api/tasks are list and create; GET, PUT and DELETE on /api/tasks/ and
    an id that is not empty, has no slash and is neither [.] nor [..] (the
    router redirects those two before it looks at a route) are get, update
    and delete, with the id as the path variable. *)
Theorem ServeHTTP_routes (sql_where : string -> option (models.Task -> bool))
    (id : string) (body : RequestBody) (d : DB) :
  id <> "" -> no_slash id = true -> id <> "." -> id <> ".." ->
  ServeHTTP sql_where "GET" "/api/tasks" body d
    = Some (serve GetAllTasks d (mkRequest [] body))
  /\ ServeHTTP sql_where "POST" "/api/tasks" body d
    = Some (serve CreateTask d (mkRequest [] body))
  /\ ServeHTTP sql_where "GET" (String.append "/api/tasks/" id) body d
    = Some (serve (GetTask sql_where) d (mkRequest [("id", id)] body))
  /\ ServeHTTP sql_where "PUT" (String.append "/api/tasks/" id) body d
    = Some (serve (UpdateTask sql_where) d (mkRequest [("id", id)] body))
  /\ ServeHTTP sql_where "DELETE" (String.append "/api/tasks/" id) body d
    = Some (serve (DeleteTask sql_where) d (mkRequest [("id", id)] body)).
Proof.
  intros Hne Hns Hdot Hdots.
  assert (Hv : negb (String.eqb id "") && no_slash id = true).
  { rewrite Hns, andb_true_r. apply negb_true_iff, String.eqb_neq. exact Hne. }
  assert (Hc := cleanPath_id_route id Hne Hns Hdot Hdots).
  split; [reflexivity|]. split; [reflexivity|].
  unfold ServeHTTP, Router_dispatch. rewrite Hc, String.eqb_refl.
  unfold router. cbn. rewrite Hv. cbn. repeat split.
Qed.

(** X18.  The routes of [main] reach a handler only as registered: list and
    create only on the path /api/tasks with GET and POST, get, update and
    delete only with GET, PUT and DELETE on /api/tasks/ followed by an id,
    and the id they are handed is never empty and never has a slash. *)
Theorem Router_Match_sound (method path : string) (h : Handler)
    (vars : list (string * string)) :
  Router_Match router method path false = Matched h vars ->
  match h with
  | HGetAllTasks => method = "GET" /\ path = "/api/tasks" /\ vars = []
  | HCreateTask => method = "POST" /\ path = "/api/tasks" /\ vars = []
  | HGetTask => method = "GET" /\ id_route path vars
  | HUpdateTask => method = "PUT" /\ id_route path vars
  | HDeleteTask => method = "DELETE" /\ id_route path vars
  | HFileServer => vars = []
  end.
Proof.
  unfold router.
  remember (match_path (WithVar "/api/tasks/" "id") path) as mv eqn:E.
  cbn [Router_Match template methods handler]. rewrite <- E.
  rewrite !match_method_one. unfold match_method.
  change (match_path (Exact "/api/tasks") path)
    with (if String.eqb "/api/tasks" path then Some (@nil (string * string)) else None).
  change (match_path (Prefix "/") path)
    with (match strip_prefix "/" path with
          | Some _ => Some (@nil (string * string))
          | None => None
          end).
  symmetry in E.
  destruct (String.eqb_spec "/api/tasks" path) as [<-|Hp].
  - rewrite match_id_route_tasks in E. subst mv. cbn [strip_prefix Ascii.eqb Bool.eqb].
    destruct (String.eqb_spec method "GET") as [->|Hg].
    { intros H. injection H as <- <-. repeat split. }
    destruct (String.eqb_spec method "POST") as [->|Hq].
    { intros H. injection H as <- <-. repeat split. }
    intros H. injection H as <- <-. reflexivity.
  - destruct mv as [vs|].
    + apply match_id_route in E.
      destruct (String.eqb_spec method "GET") as [->|Hg].
      { intros H. injection H as <- <-. split; [reflexivity | exact E]. }
      destruct (String.eqb_spec method "PUT") as [->|Hq].
      { intros H. injection H as <- <-. split; [reflexivity | exact E]. }
      destruct (String.eqb_spec method "DELETE") as [->|Hd].
      { intros H. injection H as <- <-. split; [reflexivity | exact E]. }
      destruct (strip_prefix "/" path); intros H; [|discriminate].
      injection H as <- <-. reflexivity.
    + destruct (strip_prefix "/" path); intros H; [|discriminate].
      injection H as <- <-. reflexivity.
Qed.

(** X19.  With the file server registered behind every path, the router
    always finds a route for a path that starts with a slash, and a request
    whose method is none of GET, POST, PUT and DELETE never reaches a
    handler of the API: it goes to the file server. *)
Theorem Router_Match_falls_through (method path rest : string) :
  strip_prefix "/" path = Some rest ->
  (exists h vars, Router_Match router method path false = Matched h vars)
  /\ (existsb (String.eqb method) api_methods = false ->
      Router_Match router method path false = Matched HFileServer []).
Proof.
  intros Hs. unfold router.
  remember (match_path (WithVar "/api/tasks/" "id") path) as mv eqn:E.
  cbn [Router_Match template methods handler]. rewrite <- E.
  rewrite !match_method_one. unfold match_method.
  change (match_path (Exact "/api/tasks") path)
    with (if String.eqb "/api/tasks" path then Some (@nil (string * string)) else None).
  change (match_path (Prefix "/") path)
    with (match strip_prefix "/" path with
          | Some _ => Some (@nil (string * string))
          | None => None
          end).
  rewrite Hs. split.
  - destruct (String.eqb "/api/tasks" path), mv,
      (String.eqb method "GET"), (String.eqb method "POST"),
      (String.eqb method "PUT"), (String.eqb method "DELETE"); eauto.
  - unfold api_methods. cbn [existsb]. intros Hm.
    repeat (apply orb_false_iff in Hm; destruct Hm as [? Hm]).
    repeat match goal with H : String.eqb method _ = false |- _ => rewrite H; clear H end.
    destruct (String.eqb "/api/tasks" path), mv; reflexivity.
Qed.

(** X20.  A path id that [strconv.Atoi] rejects reaches the database as the
    text of the WHERE clause: a DELETE on /api/tasks/ and such a text that
    SQLite accepts (and that is neither [.] nor [..], which the router
    redirects) deletes the first row the condition selects, and answers
    200. *)
Theorem ServeHTTP_delete_by_raw_condition
    (sql_where : string -> option (models.Task -> bool))
    (id : string) (body : RequestBody) (d : DB)
    (p : models.Task -> bool) (t : models.Task) :
  id <> "" -> no_slash id = true -> id <> "." -> id <> ".." ->
  Atoi id = None ->
  sql_where id = Some p ->
  first_by_id p (rows d) = Some t ->
  models.ID t <> 0%N ->
  hd None (faults d) = None ->
  hd None (tl (faults d)) = None ->
  exists s,
    ServeHTTP sql_where "DELETE" (String.append "/api/tasks/" id) body d = Some s
    /\ w s = answer StatusOK [envelope StatusOK "Task deleted successfully"]
    /\ rows (db s) = filter (fun u => negb (has_id (models.ID t) u)) (rows d).
Proof.
  intros Hne Hns Hdot Hdots Ha Hsql Hfirst Hid Hf1 Hf2.
  assert (Hc := cleanPath_id_route id Hne Hns Hdot Hdots).
  assert (Hv : negb (String.eqb id "") && no_slash id = true).
  { rewrite Hns, andb_true_r. apply negb_true_iff, String.eqb_neq. exact Hne. }
  assert (Hl : lookup sql_where (rows d) id = inl t).
  { unfold lookup, condition. apply String.eqb_neq in Hne. rewrite Hne, Ha, Hsql, Hfirst.
    reflexivity. }
  exists (serve (DeleteTask sql_where) d (mkRequest [("id", id)] body)).
  split.
  - unfold ServeHTTP, Router_dispatch. rewrite Hc, String.eqb_refl.
    unfold router. cbn. rewrite Hv. reflexivity.
  - rewrite DeleteTask_run. cbn [Vars index String.eqb Ascii.eqb Bool.eqb].
    rewrite DB_First_run, Hf1, Hl. cbn [fst w db]. split; [reflexivity|].
    exact (DB_Delete_run t (after_call (CallFirst id) d) Hf2 Hid).
Qed.

(* ================================================================== *)
(** ** The theorems above at concrete requests *)

Import MoreFixtures.

Lemma store2_ok : table_ok store2.
Proof.
  split; cbn.
  - repeat constructor; cbn; intuition discriminate.
  - repeat constructor; cbn; lia.
Qed.

Lemma emptyStore_ok : table_ok emptyStore.
Proof. split; constructor. Qed.


Lemma GetTask_returns_found_task_witness :
  lookup no_sql (rows store2) "2" = inl learnRocq
  /\ w (serve (GetTask no_sql) store2 (at_id "2" noBody))
     = answer StatusOK [envelope_task StatusOK "Task retrieview sucessfully" learnRocq].
Proof.
  split; [reflexivity|].
  apply (GetTask_returns_found_task no_sql store2 (at_id "2" noBody) learnRocq);
    reflexivity.
Defined.

Lemma numeric_id_without_row_404_witness :
  Atoi "7" = Some 7
  /\ w (serve (GetTask no_sql) store2 (at_id "7" noBody))
     = answer StatusNotFound [envelope StatusNotFound "Task not found"]
  /\ w (serve (UpdateTask no_sql) store2 (at_id "7" noBody))
     = answer StatusNotFound [envelope StatusNotFound "Tas not foun"]
  /\ status (w (serve (DeleteTask no_sql) store2 (at_id "7" noBody))) = StatusNotFound.
Proof.
  split; [reflexivity|].
  apply (numeric_id_without_row_404 no_sql store2 (at_id "7" noBody) 7).
  - discriminate.
  - reflexivity.
  - intros t [<-|[<-|[]]]; discriminate.
Defined.

Lemma CreateTask_then_GetTask_witness :
  snd (Decode (Object pending) models.zero) = None
  /\ Atoi "1" = Some 1
  /\ exists created,
       w (serve CreateTask emptyStore (no_id (Object pending)))
         = answer StatusCreated
             [envelope_task StatusCreated "Task created successfully" created]
       /\ w (serve (GetTask no_sql)
               (db (serve CreateTask emptyStore (no_id (Object pending))))
               (at_id "1" noBody))
         = answer StatusOK
             [envelope_task StatusOK "Task retrieview sucessfully" created]
       /\ models.Title created = "Learn Go"
       /\ models.Description created = "Study"
       /\ models.Status created = "pending".
Proof.
  split; [reflexivity|]. split; [reflexivity|].
  apply (CreateTask_then_GetTask no_sql emptyStore (no_id (Object pending))
           (at_id "1" noBody)).
  - exact emptyStore_ok.
  - reflexivity.
  - reflexivity.
  - reflexivity.
  - reflexivity.
  - reflexivity.
  - discriminate.
  - reflexivity.
Defined.

Lemma CreateTask_storage_error_500_witness :
  hd None (faults (mkDB [learnGo] 1%N 2000 [Some ErrIO] [])) = Some ErrIO
  /\ w (serve CreateTask (mkDB [learnGo] 1%N 2000 [Some ErrIO] []) (no_id (Object pending)))
     = answer StatusInternalServerError
         [envelope StatusInternalServerError "Error creating task"]
  /\ rows (db (serve CreateTask (mkDB [learnGo] 1%N 2000 [Some ErrIO] [])
                 (no_id (Object pending)))) = [learnGo]
  /\ seq (db (serve CreateTask (mkDB [learnGo] 1%N 2000 [Some ErrIO] [])
                (no_id (Object pending)))) = 1%N.
Proof.
  split; [reflexivity|].
  apply (CreateTask_storage_error_500 (mkDB [learnGo] 1%N 2000 [Some ErrIO] [])
           (no_id (Object pending)) ErrIO); reflexivity.
Defined.

Lemma CreateTask_duplicate_id_500_witness :
  existsb (has_id 1%N) (rows store2) = true
  /\ w (serve CreateTask store2
          (no_id (Object (mkFields (Some 1%N) (Some "Again") None None None None))))
     = answer StatusInternalServerError
         [envelope StatusInternalServerError "Error creating task"]
  /\ rows (db (serve CreateTask store2
                 (no_id (Object (mkFields (Some 1%N) (Some "Again") None None None None)))))
     = rows store2
  /\ seq (db (serve CreateTask store2
                (no_id (Object (mkFields (Some 1%N) (Some "Again") None None None None)))))
     = seq store2.
Proof.
  split; [reflexivity|].
  apply (CreateTask_duplicate_id_500 store2
           (no_id (Object (mkFields (Some 1%N) (Some "Again") None None None None)))).
  - reflexivity.
  - discriminate.
  - reflexivity.
Defined.

Lemma UpdateTask_bad_body_400_witness :
  lookup no_sql (rows store2) "1" = inl learnGo
  /\ w (serve (UpdateTask no_sql) store2 (at_id "1" Malformed))
     = answer StatusBadRequest [envelope StatusBadRequest "Invalid request payload"]
  /\ bodyRead (serve (UpdateTask no_sql) store2 (at_id "1" Malformed)) = true
  /\ rows (db (serve (UpdateTask no_sql) store2 (at_id "1" Malformed))) = rows store2.
Proof.
  split; [reflexivity|].
  apply (UpdateTask_bad_body_400 no_sql store2 (at_id "1" Malformed) learnGo); reflexivity.
Defined.

Lemma DeleteTask_removes_row_witness :
  lookup no_sql (rows store2) "1" = inl learnGo
  /\ w (serve (DeleteTask no_sql) store2 (at_id "1" noBody))
     = answer StatusOK [envelope StatusOK "Task deleted successfully"]
  /\ rows (db (serve (DeleteTask no_sql) store2 (at_id "1" noBody))) = [learnRocq]
  /\ seq (db (serve (DeleteTask no_sql) store2 (at_id "1" noBody))) = 2%N.
Proof.
  split; [reflexivity|].
  apply (DeleteTask_removes_row no_sql store2 (at_id "1" noBody) learnGo);
    try reflexivity.
  discriminate.
Defined.

Lemma DeleteTask_removes_exactly_one_witness :
  lookup no_sql (rows store2) "2" = inl learnRocq
  /\ ~ In learnRocq (rows (db (serve (DeleteTask no_sql) store2 (at_id "2" noBody))))
  /\ (length (rows (db (serve (DeleteTask no_sql) store2 (at_id "2" noBody)))) + 1
      = length (rows store2))%nat.
Proof.
  split; [reflexivity|].
  destruct (DeleteTask_removes_exactly_one no_sql store2 (at_id "2" noBody) learnRocq
              store2_ok eq_refl eq_refl eq_refl) as (Hgone & _ & _ & Hlen).
  split; [exact Hgone | exact Hlen].
Defined.

Lemma DeleteTask_then_GetTask_404_witness :
  lookup no_sql (rows store2) "1" = inl learnGo
  /\ w (serve (DeleteTask no_sql) store2 (at_id "1" noBody))
     = answer StatusOK [envelope StatusOK "Task deleted successfully"]
  /\ w (serve (GetTask no_sql) (db (serve (DeleteTask no_sql) store2 (at_id "1" noBody)))
          (at_id "1" noBody))
     = answer StatusNotFound [envelope StatusNotFound "Task not found"].
Proof.
  split; [reflexivity|].
  apply (DeleteTask_then_GetTask_404 no_sql store2 (at_id "1" noBody) (at_id "1" noBody)
           1 learnGo); try reflexivity.
  - exact store2_ok.
  - discriminate.
Defined.

Lemma DeleteTask_ignores_delete_error_witness :
  hd None (tl (faults (mkDB [learnGo] 1%N 2000 [None; Some ErrIO] []))) = Some ErrIO
  /\ w (serve (DeleteTask no_sql) (mkDB [learnGo] 1%N 2000 [None; Some ErrIO] [])
          (at_id "1" noBody))
     = answer StatusOK [envelope StatusOK "Task deleted successfully"]
  /\ rows (db (serve (DeleteTask no_sql) (mkDB [learnGo] 1%N 2000 [None; Some ErrIO] [])
                 (at_id "1" noBody))) = [learnGo].
Proof.
  split; [reflexivity|].
  apply (DeleteTask_ignores_delete_error no_sql
           (mkDB [learnGo] 1%N 2000 [None; Some ErrIO] []) (at_id "1" noBody)
           learnGo ErrIO); reflexivity.
Defined.

Lemma ServeHTTP_routes_witness :
  no_slash "42" = true
  /\ ServeHTTP no_sql "GET" "/api/tasks" noBody store2
     = Some (serve GetAllTasks store2 (mkRequest [] noBody))
  /\ ServeHTTP no_sql "POST" "/api/tasks" noBody store2
     = Some (serve CreateTask store2 (mkRequest [] noBody))
  /\ ServeHTTP no_sql "GET" "/api/tasks/42" noBody store2
     = Some (serve (GetTask no_sql) store2 (mkRequest [("id", "42")] noBody))
  /\ ServeHTTP no_sql "PUT" "/api/tasks/42" noBody store2
     = Some (serve (UpdateTask no_sql) store2 (mkRequest [("id", "42")] noBody))
  /\ ServeHTTP no_sql "DELETE" "/api/tasks/42" noBody store2
     = Some (serve (DeleteTask no_sql) store2 (mkRequest [("id", "42")] noBody)).
Proof.
  split; [reflexivity|].
  apply (ServeHTTP_routes no_sql "42" noBody store2);
    [discriminate | reflexivity | discriminate | discriminate].
Defined.

Lemma Router_Match_sound_witness :
  Router_Match router "DELETE" "/api/tasks/7" false = Matched HDeleteTask [("id", "7")]
  /\ "DELETE" = "DELETE" /\ id_route "/api/tasks/7" [("id", "7")].
Proof.
  split; [reflexivity|].
  exact (Router_Match_sound "DELETE" "/api/tasks/7" HDeleteTask [("id", "7")] eq_refl).
Defined.

Lemma Router_Match_falls_through_witness :
  strip_prefix "/" "/api/tasks/1" = Some "api/tasks/1"
  /\ existsb (String.eqb "PATCH") api_methods = false
  /\ Router_Match router "PATCH" "/api/tasks/1" false = Matched HFileServer [].
Proof.
  split; [reflexivity|]. split; [reflexivity|].
  exact (proj2 (Router_Match_falls_through "PATCH" "/api/tasks/1" "api/tasks/1" eq_refl)
           eq_refl).
Defined.

Lemma ServeHTTP_delete_by_raw_condition_witness :
  Atoi "1=1" = None
  /\ sql_tautology "1=1" = Some (fun _ => true)
  /\ exists s,
       ServeHTTP sql_tautology "DELETE" "/api/tasks/1=1" noBody store2 = Some s
       /\ w s = answer StatusOK [envelope StatusOK "Task deleted successfully"]
       /\ rows (db s) = [learnRocq].
Proof.
  split; [reflexivity|]. split; [reflexivity|].
  apply (ServeHTTP_delete_by_raw_condition sql_tautology "1=1" noBody store2
           (fun _ => true) learnGo); try reflexivity; discriminate.
Defined.
